(** * ssm2044~ : a shallow embedding of the filter core of [ssm2044~.c]

    The C file works on [double] and on the fields of one [t_ssm2044]
    object.  The embedding is written once, over an interface
    [DoubleOps] that names the operations of [double] the file uses
    (the four arithmetic operations, the two comparisons, [fabs], the
    libm functions [tan] and [tanh], and the decimal literals that occur
    in the text).  Two interpretations are given:

    - [real_ops]: [double] read as a real number ([R] of the Standard
      Library), the reading under which the design is described
      ("real-valued integrator memories", "saturate(input: real, ...)");
    - [float_ops]: [double] read as IEEE-754 binary64 ([PrimFloat]), with
      the two libm functions left as arguments because the kernel has no
      [tan] or [tanh] on floats.  It is used where NaN, infinities, a
      division by zero or rounding matter; where a result depends on the
      value [tan] returns, that value is tabulated and checked against
      the tangent of the Standard Library.

    Stateful C functions ([void f(t_ssm2044 *x, ...)]) become functions
    from the object to the updated object; [ssm2044_process_sample], which
    also returns a value, yields a pair. *)

From Stdlib Require Import Reals Lra Lia ZArith List Bool Floats.
From Stdlib Require QArith Qreals.
Import ListNotations.


(** ** The operations of [double] used by the source *)

Class DoubleOps (D : Type) : Type := {
  d_add : D -> D -> D;
  d_sub : D -> D -> D;
  d_mul : D -> D -> D;
  d_div : D -> D -> D;
  (** [a < b] and [a <= b] as C evaluates them (0 or 1). *)
  d_lt : D -> D -> bool;
  d_le : D -> D -> bool;
  (** [fabs], [tan], [tanh] of <math.h>. *)
  d_fabs : D -> D;
  d_tan : D -> D;
  d_tanh : D -> D;
  (** The decimal literals of the source text. *)
  lit_0 : D;          (* 0.0 *)
  lit_1 : D;          (* 1.0 *)
  lit_2 : D;          (* 2.0 *)
  lit_4 : D;          (* 4.0 *)
  lit_0_5 : D;        (* 0.5 *)
  lit_0_45 : D;       (* 0.45 *)
  lit_0_99 : D;       (* 0.99 *)
  lit_1_5 : D;        (* 1.5 *)
  lit_20 : D;         (* 20.0 *)
  lit_1000 : D;       (* 1000.0 *)
  lit_20000 : D;      (* 20000.0 *)
  lit_PI : D;         (* 3.14159265358979323846 *)
  lit_1e_15 : D       (* 1e-15 *)
}.

Declare Scope double_scope.
Delimit Scope double_scope with dbl.
Infix "+" := d_add : double_scope.
Infix "-" := d_sub : double_scope.
Infix "*" := d_mul : double_scope.
Infix "/" := d_div : double_scope.
Infix "<?" := d_lt : double_scope.
Infix "<=?" := d_le : double_scope.
(** C's [a > b] is [b < a], also on NaN (both are false). *)
Notation "a >? b" := (d_lt b a) (at level 70) : double_scope.

(** [double] as a real number. *)
#[export] Instance real_ops : DoubleOps R := {|
  d_add := Rplus;
  d_sub := Rminus;
  d_mul := Rmult;
  d_div := Rdiv;
  d_lt := fun a b => if Rlt_dec a b then true else false;
  d_le := fun a b => if Rle_dec a b then true else false;
  d_fabs := Rabs;
  d_tan := tan;
  d_tanh := tanh;
  lit_0 := 0%R;
  lit_1 := 1%R;
  lit_2 := 2%R;
  lit_4 := 4%R;
  lit_0_5 := 0.5%R;
  lit_0_45 := 0.45%R;
  lit_0_99 := 0.99%R;
  lit_1_5 := 1.5%R;
  lit_20 := 20%R;
  lit_1000 := 1000%R;
  lit_20000 := 20000%R;
  lit_PI := 3.14159265358979323846%R;
  lit_1e_15 := 1e-15%R
|}.

(** [double] as binary64.  Each literal is the binary64 value nearest to
    the decimal text, which is what a C compiler stores. *)
#[warnings="-inexact-float"] Definition float_ops (libm_tan libm_tanh : float -> float) : DoubleOps float := {|
  d_add := PrimFloat.add;
  d_sub := PrimFloat.sub;
  d_mul := PrimFloat.mul;
  d_div := PrimFloat.div;
  d_lt := PrimFloat.ltb;
  d_le := PrimFloat.leb;
  d_fabs := PrimFloat.abs;
  d_tan := libm_tan;
  d_tanh := libm_tanh;
  lit_0 := 0%float;
  lit_1 := 1%float;
  lit_2 := 2%float;
  lit_4 := 4%float;
  lit_0_5 := 0.5%float;
  lit_0_45 := 0.45%float;
  lit_0_99 := 0.99%float;
  lit_1_5 := 1.5%float;
  lit_20 := 20%float;
  lit_1000 := 1000%float;
  lit_20000 := 20000%float;
  lit_PI := 3.14159265358979323846%float;
  lit_1e_15 := 1e-15%float
|}.

(** ** The object and the functions of the source *)

Section SSM2044.

Context {D : Type} {ops : DoubleOps D}.
Local Open Scope double_scope.

(** [#define] constants, lines 41-50. *)
Definition PI : D := lit_PI.
Definition DENORMAL_THRESHOLD : D := lit_1e_15.
Definition RESONANCE_SCALE : D := lit_4.
Definition MAX_RESONANCE : D := lit_4.
Definition INPUT_DRIVE : D := lit_1_5.
Definition FEEDBACK_DRIVE : D := lit_2.

(** Modelled from the spec: the macro [CLAMP] comes from the Max SDK header
    [ext_common.h], which is not among the sources.  The design text only
    says "clamp to [lo, hi]"; the definition below is that clamp, written
    with the two comparisons the SDK macro uses,
    [(a)>(lo) ? ((a)<(hi) ? (a) : (hi)) : (lo)]. *)
Definition CLAMP (a lo hi : D) : D :=
  if a >? lo then (if a <? hi then a else hi) else lo.

(** [struct _ssm2044], lines 52-81, without the MSP header [ob].  The three
    [short] flags and the [long] factor are integers; the buffer pointer is
    [None] for [NULL]. *)
Record t_ssm2044 : Type := mk_ssm2044 {
  state1 : D;
  state2 : D;
  state3 : D;
  state4 : D;
  feedback_sample : D;
  sr : D;
  sr_inv : D;
  cutoff_float : D;
  resonance_float : D;
  gain_float : D;
  cutoff_has_signal : Z;
  resonance_has_signal : Z;
  gain_has_signal : Z;
  g : D;
  k : D;
  oversample_factor : Z;
  oversample_buffer : option (list D)
}.

(** Assignments [x->field = v]. *)
Definition set_state1 (x : t_ssm2044) (v : D) : t_ssm2044 :=
  mk_ssm2044 v (state2 x) (state3 x) (state4 x) (feedback_sample x) (sr x) (sr_inv x)
    (cutoff_float x) (resonance_float x) (gain_float x)
    (cutoff_has_signal x) (resonance_has_signal x) (gain_has_signal x)
    (g x) (k x) (oversample_factor x) (oversample_buffer x).

Definition set_state2 (x : t_ssm2044) (v : D) : t_ssm2044 :=
  mk_ssm2044 (state1 x) v (state3 x) (state4 x) (feedback_sample x) (sr x) (sr_inv x)
    (cutoff_float x) (resonance_float x) (gain_float x)
    (cutoff_has_signal x) (resonance_has_signal x) (gain_has_signal x)
    (g x) (k x) (oversample_factor x) (oversample_buffer x).

Definition set_state3 (x : t_ssm2044) (v : D) : t_ssm2044 :=
  mk_ssm2044 (state1 x) (state2 x) v (state4 x) (feedback_sample x) (sr x) (sr_inv x)
    (cutoff_float x) (resonance_float x) (gain_float x)
    (cutoff_has_signal x) (resonance_has_signal x) (gain_has_signal x)
    (g x) (k x) (oversample_factor x) (oversample_buffer x).

Definition set_state4 (x : t_ssm2044) (v : D) : t_ssm2044 :=
  mk_ssm2044 (state1 x) (state2 x) (state3 x) v (feedback_sample x) (sr x) (sr_inv x)
    (cutoff_float x) (resonance_float x) (gain_float x)
    (cutoff_has_signal x) (resonance_has_signal x) (gain_has_signal x)
    (g x) (k x) (oversample_factor x) (oversample_buffer x).

Definition set_feedback_sample (x : t_ssm2044) (v : D) : t_ssm2044 :=
  mk_ssm2044 (state1 x) (state2 x) (state3 x) (state4 x) v (sr x) (sr_inv x)
    (cutoff_float x) (resonance_float x) (gain_float x)
    (cutoff_has_signal x) (resonance_has_signal x) (gain_has_signal x)
    (g x) (k x) (oversample_factor x) (oversample_buffer x).

Definition set_sr (x : t_ssm2044) (v : D) : t_ssm2044 :=
  mk_ssm2044 (state1 x) (state2 x) (state3 x) (state4 x) (feedback_sample x) v (sr_inv x)
    (cutoff_float x) (resonance_float x) (gain_float x)
    (cutoff_has_signal x) (resonance_has_signal x) (gain_has_signal x)
    (g x) (k x) (oversample_factor x) (oversample_buffer x).

Definition set_sr_inv (x : t_ssm2044) (v : D) : t_ssm2044 :=
  mk_ssm2044 (state1 x) (state2 x) (state3 x) (state4 x) (feedback_sample x) (sr x) v
    (cutoff_float x) (resonance_float x) (gain_float x)
    (cutoff_has_signal x) (resonance_has_signal x) (gain_has_signal x)
    (g x) (k x) (oversample_factor x) (oversample_buffer x).

Definition set_cutoff_has_signal (x : t_ssm2044) (v : Z) : t_ssm2044 :=
  mk_ssm2044 (state1 x) (state2 x) (state3 x) (state4 x) (feedback_sample x) (sr x) (sr_inv x)
    (cutoff_float x) (resonance_float x) (gain_float x)
    v (resonance_has_signal x) (gain_has_signal x)
    (g x) (k x) (oversample_factor x) (oversample_buffer x).

Definition set_resonance_has_signal (x : t_ssm2044) (v : Z) : t_ssm2044 :=
  mk_ssm2044 (state1 x) (state2 x) (state3 x) (state4 x) (feedback_sample x) (sr x) (sr_inv x)
    (cutoff_float x) (resonance_float x) (gain_float x)
    (cutoff_has_signal x) v (gain_has_signal x)
    (g x) (k x) (oversample_factor x) (oversample_buffer x).

Definition set_gain_has_signal (x : t_ssm2044) (v : Z) : t_ssm2044 :=
  mk_ssm2044 (state1 x) (state2 x) (state3 x) (state4 x) (feedback_sample x) (sr x) (sr_inv x)
    (cutoff_float x) (resonance_float x) (gain_float x)
    (cutoff_has_signal x) (resonance_has_signal x) v
    (g x) (k x) (oversample_factor x) (oversample_buffer x).

Definition set_g (x : t_ssm2044) (v : D) : t_ssm2044 :=
  mk_ssm2044 (state1 x) (state2 x) (state3 x) (state4 x) (feedback_sample x) (sr x) (sr_inv x)
    (cutoff_float x) (resonance_float x) (gain_float x)
    (cutoff_has_signal x) (resonance_has_signal x) (gain_has_signal x)
    v (k x) (oversample_factor x) (oversample_buffer x).

Definition set_k (x : t_ssm2044) (v : D) : t_ssm2044 :=
  mk_ssm2044 (state1 x) (state2 x) (state3 x) (state4 x) (feedback_sample x) (sr x) (sr_inv x)
    (cutoff_float x) (resonance_float x) (gain_float x)
    (cutoff_has_signal x) (resonance_has_signal x) (gain_has_signal x)
    (g x) v (oversample_factor x) (oversample_buffer x).

(** The object as [ssm2044_new] leaves it when the box has no creation
    argument ([argc = 0], lines 141-165); [sys_sr] is what [sys_getsr()]
    returned. *)
Definition ssm2044_new (sys_sr : D) : t_ssm2044 :=
  {| state1 := lit_0; state2 := lit_0; state3 := lit_0; state4 := lit_0;
     feedback_sample := lit_0;
     sr := sys_sr;
     sr_inv := lit_1 / sys_sr;
     cutoff_float := lit_1000;
     resonance_float := lit_0_5;
     gain_float := lit_1;
     cutoff_has_signal := 0;
     resonance_has_signal := 0;
     gain_has_signal := 0;
     g := lit_0;
     k := lit_0;
     oversample_factor := 1;
     oversample_buffer := None |}.

(** [ssm2044_dsp64], lines 202-213.  [count] is the host's array of
    connection counts; registering the perform routine changes nothing in
    the object. *)
Definition ssm2044_dsp64 (x : t_ssm2044) (count : nat -> Z) (samplerate : D) : t_ssm2044 :=
  let x := set_sr x samplerate in
  let x := set_sr_inv x (lit_1 / samplerate) in
  let x := set_cutoff_has_signal x (count 1%nat) in
  let x := set_resonance_has_signal x (count 2%nat) in
  let x := set_gain_has_signal x (count 3%nat) in
  x.

(** [denormal_fix], lines 318-324. *)
Definition denormal_fix (value : D) : D :=
  if d_fabs value <? DENORMAL_THRESHOLD then lit_0 else value.

(** [soft_saturation], lines 328-340. *)
Definition soft_saturation (input drive : D) : D :=
  if drive <=? lit_0 then input
  else
    let driven := input * drive in
    let saturated := d_tanh driven in
    saturated / drive.

(** [compute_filter_coefficients], lines 293-314. *)
Definition compute_filter_coefficients (x : t_ssm2044) (cutoff resonance : D) : t_ssm2044 :=
  let cutoff := CLAMP cutoff lit_20 (sr x * lit_0_45) in
  let omega := lit_2 * PI * cutoff in
  let omega_warped := d_tan (omega * sr_inv x * lit_0_5) in
  let x := set_g x (omega_warped / (lit_1 + omega_warped)) in
  let x := set_g x (CLAMP (g x) lit_0 lit_0_99) in
  let x := set_k x (resonance * RESONANCE_SCALE) in
  x.

(** [ssm2044_process_sample], lines 252-289: the updated object and the
    returned sample. *)
Definition ssm2044_process_sample (x : t_ssm2044) (input cutoff resonance gain : D)
  : t_ssm2044 * D :=
  let x := compute_filter_coefficients x cutoff resonance in
  let scaled_input := input * gain in
  let saturated_input := soft_saturation scaled_input INPUT_DRIVE in
  let g_ := g x in
  let k_ := k x in
  let saturated_feedback := soft_saturation (feedback_sample x) FEEDBACK_DRIVE in
  let fb_input := saturated_input + k_ * saturated_feedback in
  let stage1_out := state1 x + g_ * (fb_input - state1 x) in
  let stage2_out := state2 x + g_ * (stage1_out - state2 x) in
  let stage3_out := state3 x + g_ * (stage2_out - state3 x) in
  let stage4_out := state4 x + g_ * (stage3_out - state4 x) in
  let x := set_state1 x (denormal_fix stage1_out) in
  let x := set_state2 x (denormal_fix stage2_out) in
  let x := set_state3 x (denormal_fix stage3_out) in
  let x := set_state4 x (denormal_fix stage4_out) in
  let x := set_feedback_sample x stage4_out in
  (x, stage4_out).

(** A [short] used as a condition: true when it is not zero. *)
Definition truthy (flag : Z) : bool := negb (Z.eqb flag 0).

(** The loop of [ssm2044_perform64], lines 230-247.  A buffer is a map from
    offsets to samples and each of the four read pointers is an offset into
    its buffer; the samples written through [out] are collected in order.
    [n] is the remaining frame count, which the host never makes negative.
    A frame reads its inputs before it writes its output, at the same
    offset, so an output buffer that shares memory with an input buffer
    changes nothing. *)
Fixpoint perform_loop (n : nat) (x : t_ssm2044)
    (audio_buf cutoff_buf resonance_buf gain_buf : nat -> D)
    (audio_in cutoff_in resonance_in gain_in : nat) : t_ssm2044 * list D :=
  match n with
  | O => (x, [])
  | S n' =>
      let audio := audio_buf audio_in in
      let audio_in := S audio_in in
      let cutoff := if truthy (cutoff_has_signal x) then cutoff_buf cutoff_in else cutoff_float x in
      let cutoff_in := if truthy (cutoff_has_signal x) then S cutoff_in else cutoff_in in
      let resonance :=
        if truthy (resonance_has_signal x) then resonance_buf resonance_in else resonance_float x in
      let resonance_in := if truthy (resonance_has_signal x) then S resonance_in else resonance_in in
      let gain := if truthy (gain_has_signal x) then gain_buf gain_in else gain_float x in
      let gain_in := if truthy (gain_has_signal x) then S gain_in else gain_in in
      let cutoff := CLAMP cutoff lit_20 lit_20000 in
      let resonance := CLAMP resonance lit_0 MAX_RESONANCE in
      let gain := CLAMP gain lit_0 lit_4 in
      let (x, filtered) := ssm2044_process_sample x audio cutoff resonance gain in
      let (x, outs) :=
        perform_loop n' x audio_buf cutoff_buf resonance_buf gain_buf
          audio_in cutoff_in resonance_in gain_in in
      (x, denormal_fix filtered :: outs)
  end.

(** [ssm2044_perform64], lines 217-248: [ins i] is the buffer [ins[i]], the
    result lists the [sampleframes] samples written to [outs[0]]. *)
Definition ssm2044_perform64 (x : t_ssm2044) (ins : nat -> nat -> D) (sampleframes : nat)
  : t_ssm2044 * list D :=
  perform_loop sampleframes x (ins 0%nat) (ins 1%nat) (ins 2%nat) (ins 3%nat)
    0%nat 0%nat 0%nat 0%nat.

(** Lines 274-277 of [ssm2044_process_sample] on their own: the outputs of
    the four one-pole stages for integrator gain [g_], pole states [s] and
    stage input [fb_input]. *)
Definition cascade_stages (g_ : D) (s : D * D * D * D) (fb_input : D) : D * D * D * D :=
  let '(s1, s2, s3, s4) := s in
  let stage1_out := s1 + g_ * (fb_input - s1) in
  let stage2_out := s2 + g_ * (stage1_out - s2) in
  let stage3_out := s3 + g_ * (stage2_out - s3) in
  let stage4_out := s4 + g_ * (stage3_out - s4) in
  (stage1_out, stage2_out, stage3_out, stage4_out).

(** Lines 274-283 and 288: the stages, the state update and the returned
    fourth-stage output. *)
Definition cascade (g_ : D) (s : D * D * D * D) (fb_input : D) : (D * D * D * D) * D :=
  let '(o1, o2, o3, o4) := cascade_stages g_ s fb_input in
  ((denormal_fix o1, denormal_fix o2, denormal_fix o3, denormal_fix o4), o4).

Definition pole_states (x : t_ssm2044) : D * D * D * D :=
  (state1 x, state2 x, state3 x, state4 x).

(** The stage input of line 271 once the coefficients are in the object. *)
Definition stage_input (x : t_ssm2044) (input gain : D) : D :=
  soft_saturation (input * gain) INPUT_DRIVE
  + k x * soft_saturation (feedback_sample x) FEEDBACK_DRIVE.

(** A unit impulse: 1 at sample 0, then 0. *)
Definition unit_impulse (n : nat) : D :=
  match n with O => lit_1 | S _ => lit_0 end.

(** The cascade driven by the unit impulse from zeroed pole states:
    [impulse_states g_ n] are the pole states before sample [n],
    [impulse_stages g_ n] the four stage outputs of sample [n] and
    [impulse_output g_ n] the value returned for sample [n]. *)
Fixpoint impulse_states (g_ : D) (n : nat) : D * D * D * D :=
  match n with
  | O => (lit_0, lit_0, lit_0, lit_0)
  | S m => fst (cascade g_ (impulse_states g_ m) (unit_impulse m))
  end.

Definition impulse_stages (g_ : D) (n : nat) : D * D * D * D :=
  cascade_stages g_ (impulse_states g_ n) (unit_impulse n).

Definition impulse_output (g_ : D) (n : nat) : D :=
  snd (cascade g_ (impulse_states g_ n) (unit_impulse n)).

(** The fields that neither the coefficient computation nor the sample
    routine assigns. *)
Definition same_config (x x' : t_ssm2044) : Prop :=
  cutoff_float x' = cutoff_float x /\
  resonance_float x' = resonance_float x /\
  gain_float x' = gain_float x /\
  cutoff_has_signal x' = cutoff_has_signal x /\
  resonance_has_signal x' = resonance_has_signal x /\
  gain_has_signal x' = gain_has_signal x /\
  sr x' = sr x /\
  sr_inv x' = sr_inv x /\
  oversample_factor x' = oversample_factor x /\
  oversample_buffer x' = oversample_buffer x.

(** Where a read pointer stands after [i] frames: advanced [i] times when
    its inlet has a signal, not at all otherwise. *)
Definition advanced (flag : Z) (p i : nat) : nat :=
  if truthy flag then (p + i)%nat else p.

(** The parameter of one frame as the design text words it: the current
    sample of the stream when one is attached, the held scalar otherwise. *)
Definition resolve (has_signal : Z) (stream_value held : D) : D :=
  if truthy has_signal then stream_value else held.

End SSM2044.

Arguments t_ssm2044 D : clear implicits.

(** Binary64 arithmetic for the functions that call neither [tan] nor
    [tanh] ([CLAMP], [denormal_fix], [ssm2044_dsp64]): the two libm slots
    are filled with a function that is never reached. *)
Definition no_libm (_ : float) : float := nan.
Definition float_arith : DoubleOps float := float_ops no_libm no_libm.

(** An object whose connection counts are all zero. *)
Definition no_signals (_ : nat) : Z := 0%Z.

(** An object whose three parameter inlets all have a signal. *)
Definition all_signals (_ : nat) : Z := 1%Z.

(** Input buffers for the clamp scenario: audio 1, cutoff 50000,
    resonance -1 and gain 1 in every frame. *)
Definition clamp_scenario_ins (inlet frame : nat) : R :=
  match inlet with
  | 1%nat => 50000%R
  | 2%nat => (-1)%R
  | _ => 1%R
  end.

(** What the four stage outputs of one sample of the impulse response
    satisfy: each lies in [0, 1], and each stage has at least [g_] times
    the output of the stage before it. *)
Definition stage_inv (g_ : R) (o : R * R * R * R) : Prop :=
  let '(o1, o2, o3, o4) := o in
  (0 <= o1 <= 1 /\ 0 <= o2 <= 1 /\ 0 <= o3 <= 1 /\ 0 <= o4 <= 1)%R /\
  (g_ * o1 <= o2 /\ g_ * o2 <= o3 /\ g_ * o3 <= o4)%R.

(** One stage is non-expansive when its output lies between its own state
    and its input. *)
Definition between (s u o : R) : Prop := (Rmin s u <= o <= Rmax s u)%R.

(** ** The control-side functions of the source *)

Section Control.

Context {D : Type} {ops : DoubleOps D}.
Local Open Scope double_scope.

Definition set_cutoff_float (x : t_ssm2044 D) (v : D) : t_ssm2044 D :=
  mk_ssm2044 (state1 x) (state2 x) (state3 x) (state4 x) (feedback_sample x) (sr x) (sr_inv x)
    v (resonance_float x) (gain_float x)
    (cutoff_has_signal x) (resonance_has_signal x) (gain_has_signal x)
    (g x) (k x) (oversample_factor x) (oversample_buffer x).

Definition set_resonance_float (x : t_ssm2044 D) (v : D) : t_ssm2044 D :=
  mk_ssm2044 (state1 x) (state2 x) (state3 x) (state4 x) (feedback_sample x) (sr x) (sr_inv x)
    (cutoff_float x) v (gain_float x)
    (cutoff_has_signal x) (resonance_has_signal x) (gain_has_signal x)
    (g x) (k x) (oversample_factor x) (oversample_buffer x).

Definition set_gain_float (x : t_ssm2044 D) (v : D) : t_ssm2044 D :=
  mk_ssm2044 (state1 x) (state2 x) (state3 x) (state4 x) (feedback_sample x) (sr x) (sr_inv x)
    (cutoff_float x) (resonance_float x) v
    (cutoff_has_signal x) (resonance_has_signal x) (gain_has_signal x)
    (g x) (k x) (oversample_factor x) (oversample_buffer x).

Definition set_oversample_factor (x : t_ssm2044 D) (v : Z) : t_ssm2044 D :=
  mk_ssm2044 (state1 x) (state2 x) (state3 x) (state4 x) (feedback_sample x) (sr x) (sr_inv x)
    (cutoff_float x) (resonance_float x) (gain_float x)
    (cutoff_has_signal x) (resonance_has_signal x) (gain_has_signal x)
    (g x) (k x) v (oversample_buffer x).

Definition set_oversample_buffer (x : t_ssm2044 D) (v : option (list D)) : t_ssm2044 D :=
  mk_ssm2044 (state1 x) (state2 x) (state3 x) (state4 x) (feedback_sample x) (sr x) (sr_inv x)
    (cutoff_float x) (resonance_float x) (gain_float x)
    (cutoff_has_signal x) (resonance_has_signal x) (gain_has_signal x)
    (g x) (k x) (oversample_factor x) v.

(** [ssm2044_float], lines 344-359.  [inlet] is what [proxy_getinlet]
    returned; a [switch] without [default] does nothing for any other
    value. *)
Definition ssm2044_float (x : t_ssm2044 D) (inlet : Z) (f : D) : t_ssm2044 D :=
  match inlet with
  | 1%Z => set_cutoff_float x (CLAMP f lit_20 lit_20000)
  | 2%Z => set_resonance_float x (CLAMP f lit_0 MAX_RESONANCE)
  | 3%Z => set_gain_float x (CLAMP f lit_0 lit_4)
  | _ => x
  end.

(** [ssm2044_int], lines 363-378.  [to_double] is the conversion
    [(double)n] of a [long]. *)
Definition ssm2044_int (to_double : Z -> D) (x : t_ssm2044 D) (inlet : Z) (n : Z)
  : t_ssm2044 D :=
  match inlet with
  | 1%Z => set_cutoff_float x (CLAMP (to_double n) lit_20 lit_20000)
  | 2%Z => set_resonance_float x (CLAMP (to_double n) lit_0 MAX_RESONANCE)
  | 3%Z => set_gain_float x (CLAMP (to_double n) lit_0 lit_4)
  | _ => x
  end.

Section Creation.

(** The atoms of the Max SDK, which is not among the sources: the type of
    an atom, its type tag, the two tags the source tests for and the
    numeric value [atom_getfloat] reads from it. *)
Variable t_atom : Type.
Variable atom_gettype : t_atom -> Z.
Variable A_FLOAT A_LONG : Z.
Variable atom_getfloat : t_atom -> D.

(** The test [atom_gettype(a) == A_FLOAT || atom_gettype(a) == A_LONG]. *)
Definition atom_is_number (a : t_atom) : bool :=
  Z.eqb (atom_gettype a) A_FLOAT || Z.eqb (atom_gettype a) A_LONG.

(** [ssm2044_new], lines 132-189, with its arguments.  [object_alloc] is
    the memory the host returned ([None] for [NULL], otherwise an object
    with whatever contents), [sys_getsr] the host's sample rate, [argv] the
    atom array and [malloc] what [malloc] would return. *)
Definition ssm2044_new_args (object_alloc : option (t_ssm2044 D)) (sys_getsr : D)
    (argc : Z) (argv : nat -> t_atom) (malloc : option (list D)) : option (t_ssm2044 D) :=
  match object_alloc with
  | None => None
  | Some x =>
      let x := set_sr x sys_getsr in
      let x := set_sr_inv x (lit_1 / sr x) in
      let x := set_state4 x lit_0 in
      let x := set_state3 x lit_0 in
      let x := set_state2 x lit_0 in
      let x := set_state1 x lit_0 in
      let x := set_feedback_sample x lit_0 in
      let x := set_cutoff_float x lit_1000 in
      let x := set_resonance_float x lit_0_5 in
      let x := set_gain_float x lit_1 in
      let x := set_cutoff_has_signal x 0 in
      let x := set_resonance_has_signal x 0 in
      let x := set_gain_has_signal x 0 in
      let x := set_g x lit_0 in
      let x := set_k x lit_0 in
      let x := set_oversample_factor x 1 in
      let x := set_oversample_buffer x None in
      let x :=
        if (1 <=? argc)%Z && atom_is_number (argv 0%nat)
        then set_cutoff_float x (CLAMP (atom_getfloat (argv 0%nat)) lit_20 lit_20000)
        else x in
      let x :=
        if (2 <=? argc)%Z && atom_is_number (argv 1%nat)
        then set_resonance_float x (CLAMP (atom_getfloat (argv 1%nat)) lit_0 lit_4)
        else x in
      let x :=
        if (3 <=? argc)%Z && atom_is_number (argv 2%nat)
        then set_gain_float x (CLAMP (atom_getfloat (argv 2%nat)) lit_0 lit_4)
        else x in
      let x :=
        if (1 <? oversample_factor x)%Z
        then
          let x := set_oversample_buffer x malloc in
          match oversample_buffer x with
          | None => set_oversample_factor x 1
          | Some _ => x
          end
        else x in
      Some x
  end.

End Creation.

(** Two objects that agree on everything the block routine reads: the pole
    states, the feedback memory, the sample-rate fields, whether each
    parameter inlet has a signal, and the held scalar of every inlet that
    has none. *)
Definition reads_agree (x x' : t_ssm2044 D) : Prop :=
  pole_states x = pole_states x' /\
  feedback_sample x = feedback_sample x' /\
  sr x = sr x' /\ sr_inv x = sr_inv x' /\
  truthy (cutoff_has_signal x) = truthy (cutoff_has_signal x') /\
  truthy (resonance_has_signal x) = truthy (resonance_has_signal x') /\
  truthy (gain_has_signal x) = truthy (gain_has_signal x') /\
  (truthy (cutoff_has_signal x) = false -> cutoff_float x = cutoff_float x') /\
  (truthy (resonance_has_signal x) = false -> resonance_float x = resonance_float x') /\
  (truthy (gain_has_signal x) = false -> gain_float x = gain_float x').

(** Input buffers read from frame [n] on. *)
Definition later_frames (ins : nat -> nat -> D) (n : nat) : nat -> nat -> D :=
  fun inlet i => ins inlet (n + i)%nat.

End Control.

(** Over the reals: the ranges the held scalars are written with. *)
Definition held_in_range (x : t_ssm2044 R) : Prop :=
  (20 <= cutoff_float x <= 20000 /\ 0 <= resonance_float x <= 4 /\
   0 <= gain_float x <= 4)%R.

(** Over the reals: the four pole states lie within [-b, b]. *)
Definition poles_within (b : R) (x : t_ssm2044 R) : Prop :=
  (- b <= state1 x <= b /\ - b <= state2 x <= b /\
   - b <= state3 x <= b /\ - b <= state4 x <= b)%R.

(** Over the reals: the pole states and the feedback memory are all 0. *)
Definition at_rest (x : t_ssm2044 R) : Prop :=
  state1 x = 0%R /\ state2 x = 0%R /\ state3 x = 0%R /\ state4 x = 0%R /\
  feedback_sample x = 0%R.

(** Over the reals: the object with its pole states and feedback memory
    negated. *)
Definition negated (x : t_ssm2044 R) : t_ssm2044 R :=
  mk_ssm2044 (- state1 x)%R (- state2 x)%R (- state3 x)%R (- state4 x)%R
    (- feedback_sample x)%R (sr x) (sr_inv x)
    (cutoff_float x) (resonance_float x) (gain_float x)
    (cutoff_has_signal x) (resonance_has_signal x) (gain_has_signal x)
    (g x) (k x) (oversample_factor x) (oversample_buffer x).

(** Over the reals: input buffers with the audio inlet inverted in sign. *)
Definition inverted_audio (ins : nat -> nat -> R) : nat -> nat -> R :=
  fun inlet i => match inlet with O => (- ins O i)%R | _ => ins inlet i end.

(** ** The argument of [tan] *)

Section WarpAngle.

Context {D : Type} {ops : DoubleOps D}.
Local Open Scope double_scope.

(** The argument line 302 hands to [tan], for the cutoff as clamped in
    line 295 (lemma [integrator_gain_unfold]). *)
Definition warp_angle (x : t_ssm2044 D) (cutoff : D) : D :=
  let cutoff := CLAMP cutoff lit_20 (sr x * lit_0_45) in
  let omega := lit_2 * PI * cutoff in
  omega * sr_inv x * lit_0_5.

End WarpAngle.

(** ** The binary64 reading near a cutoff of 15 kHz at 48 kHz *)

(** Two adjacent binary64 cutoffs just above 15000 Hz. *)
Definition cutoff_15k_lo : float := 0x1.d4c0000000003p+13%float.
Definition cutoff_15k_hi : float := 0x1.d4c0000000004p+13%float.

(** The arguments line 302 hands to [tan] for these two cutoffs at a
    sample rate of 48000 Hz (lemma [warp_angle_at_15k]). *)
Definition warp_angle_15k_lo : float := 0x1.f6a7a29553861p-1%float.
Definition warp_angle_15k_hi : float := 0x1.f6a7a29553862p-1%float.

(** The binary64 numbers nearest to the tangent of these two arguments
    (lemma [tan_at_15k_correctly_rounded]). *)
Definition warped_15k_lo : float := 0x1.7f218e25a7466p+0%float.
Definition warped_15k_hi : float := 0x1.7f218e25a7467p+0%float.

(** [tan] of <math.h> belongs to the C library, not to the repository.
    [tan_at_15k] is a correctly rounded [tan] restricted to the two
    arguments above; nothing is said about any other argument. *)
Definition tan_at_15k (a : float) : float :=
  if PrimFloat.eqb a warp_angle_15k_lo then warped_15k_lo
  else if PrimFloat.eqb a warp_angle_15k_hi then warped_15k_hi
  else nan.

(** The rational number a finite binary64 value stands for. *)
Definition Q_of_binary64 (f : float) : QArith_base.Q :=
  match Prim2SF f with
  | S754_finite s m e =>
      QArith_base.Qmult (QArith_base.inject_Z (if s then Zneg m else Zpos m))
                        (QArith_base.Qpower (QArith_base.inject_Z 2) e)
  | _ => QArith_base.inject_Z 0
  end.

(** The midpoints between a binary64 value and its two neighbours. *)
Definition midpoint_below (f : float) : QArith_base.Q :=
  QArith_base.Qdiv
    (QArith_base.Qplus (Q_of_binary64 (next_down f)) (Q_of_binary64 f))
    (QArith_base.inject_Z 2).

Definition midpoint_above (f : float) : QArith_base.Q :=
  QArith_base.Qdiv
    (QArith_base.Qplus (Q_of_binary64 f) (Q_of_binary64 (next_up f)))
    (QArith_base.inject_Z 2).

(** [f] is the binary64 value nearest to the real number [r]: [r] lies
    strictly between the midpoints to the two neighbours of [f], so
    rounding to nearest returns [f] whatever the rule for ties. *)
Definition nearest_binary64 (r : R) (f : float) : Prop :=
  (Q2R (midpoint_below f) < r < Q2R (midpoint_above f))%R.

(** Partial sums of the sine and cosine series over the rationals; they
    mirror [sin_approx] and [cos_approx] of the Standard Library. *)
Fixpoint Zfact (n : nat) : Z :=
  match n with
  | O => 1%Z
  | S i => (Z.of_nat (S i) * Zfact i)%Z
  end.

Fixpoint Qpow (a : QArith_base.Q) (n : nat) : QArith_base.Q :=
  match n with
  | O => QArith_base.inject_Z 1
  | S i => QArith_base.Qmult a (Qpow a i)
  end.

Fixpoint Qsum (f : nat -> QArith_base.Q) (n : nat) : QArith_base.Q :=
  match n with
  | O => f O
  | S i => QArith_base.Qplus (Qsum f i) (f (S i))
  end.

Definition Qsin_term (a : QArith_base.Q) (i : nat) : QArith_base.Q :=
  QArith_base.Qmult (Qpow (QArith_base.inject_Z (-1)) i)
    (QArith_base.Qdiv (Qpow a (2 * i + 1))
                      (QArith_base.inject_Z (Zfact (2 * i + 1)))).

Definition Qcos_term (a : QArith_base.Q) (i : nat) : QArith_base.Q :=
  QArith_base.Qmult (Qpow (QArith_base.inject_Z (-1)) i)
    (QArith_base.Qdiv (Qpow a (2 * i))
                      (QArith_base.inject_Z (Zfact (2 * i)))).

Definition Qsin_approx (a : QArith_base.Q) (n : nat) : QArith_base.Q :=
  Qsum (Qsin_term a) n.

Definition Qcos_approx (a : QArith_base.Q) (n : nat) : QArith_base.Q :=
  Qsum (Qcos_term a) n.
(** ** Facts that hold for every interpretation of [double] *)

Section Generic.

Context {D : Type} {ops : DoubleOps D}.
Local Open Scope double_scope.

Lemma same_config_refl (x : t_ssm2044 D) : same_config x x.
Proof. repeat split. Qed.

Lemma same_config_trans (x y z : t_ssm2044 D) :
  same_config x y -> same_config y z -> same_config x z.
Proof.
  unfold same_config; intros Hxy Hyz.
  repeat match goal with H : _ /\ _ |- _ => destruct H end.
  repeat split; congruence.
Qed.

Lemma compute_filter_coefficients_config (x : t_ssm2044 D) (cutoff resonance : D) :
  same_config x (compute_filter_coefficients x cutoff resonance).
Proof. repeat split. Qed.

Lemma process_sample_config (x : t_ssm2044 D) (input cutoff resonance gain : D) :
  same_config x (fst (ssm2044_process_sample x input cutoff resonance gain)).
Proof. repeat split. Qed.

(** One iteration of the loop, with the two pairs taken apart. *)
Lemma perform_loop_S (n : nat) (x : t_ssm2044 D) (ab cb rb gb : nat -> D) (pa pc pr pg : nat) :
  perform_loop (S n) x ab cb rb gb pa pc pr pg =
  let cs := truthy (cutoff_has_signal x) in
  let rs := truthy (resonance_has_signal x) in
  let gs := truthy (gain_has_signal x) in
  let p := ssm2044_process_sample x (ab pa)
             (CLAMP (if cs then cb pc else cutoff_float x) lit_20 lit_20000)
             (CLAMP (if rs then rb pr else resonance_float x) lit_0 MAX_RESONANCE)
             (CLAMP (if gs then gb pg else gain_float x) lit_0 lit_4) in
  let r := perform_loop n (fst p) ab cb rb gb (S pa)
             (if cs then S pc else pc) (if rs then S pr else pr) (if gs then S pg else pg) in
  (fst r, denormal_fix (snd p) :: snd r).
Proof.
  cbv zeta. cbn [perform_loop].
  destruct (ssm2044_process_sample _ _ _ _ _) as [x1 y] eqn:Ep.
  cbn [fst snd].
  destruct (perform_loop n x1 _ _ _ _ _ _ _ _) as [x2 outs]. reflexivity.
Qed.

Lemma perform_loop_config (n : nat) :
  forall (x : t_ssm2044 D) (ab cb rb gb : nat -> D) (pa pc pr pg : nat),
    same_config x (fst (perform_loop n x ab cb rb gb pa pc pr pg)).
Proof.
  induction n as [|n IH]; intros.
  - apply same_config_refl.
  - rewrite perform_loop_S. cbv zeta. cbn [fst].
    eapply same_config_trans; [ apply process_sample_config | apply IH ].
Qed.

Lemma perform_loop_length (n : nat) :
  forall (x : t_ssm2044 D) (ab cb rb gb : nat -> D) (pa pc pr pg : nat),
    length (snd (perform_loop n x ab cb rb gb pa pc pr pg)) = n.
Proof.
  induction n as [|n IH]; intros.
  - reflexivity.
  - rewrite perform_loop_S. cbv zeta. cbn [snd length]. now rewrite IH.
Qed.

(** A block of [n + m] frames is a block of [n] frames followed by a block
    of [m] frames that starts where the first one stopped. *)
Lemma perform_loop_split (n m : nat) :
  forall (x : t_ssm2044 D) (ab cb rb gb : nat -> D) (pa pc pr pg : nat),
    perform_loop (n + m) x ab cb rb gb pa pc pr pg =
    let r1 := perform_loop n x ab cb rb gb pa pc pr pg in
    let r2 := perform_loop m (fst r1) ab cb rb gb (pa + n)
                (advanced (cutoff_has_signal x) pc n)
                (advanced (resonance_has_signal x) pr n)
                (advanced (gain_has_signal x) pg n) in
    (fst r2, snd r1 ++ snd r2).
Proof.
  induction n as [|n IH]; intros; cbv zeta.
  - cbn [Nat.add perform_loop fst snd app]. unfold advanced.
    rewrite !Nat.add_0_r.
    destruct (truthy (cutoff_has_signal x)), (truthy (resonance_has_signal x)),
      (truthy (gain_has_signal x));
      now destruct (perform_loop m x ab cb rb gb pa pc pr pg).
  - cbn [Nat.add]. rewrite !perform_loop_S. cbv zeta. cbn [fst snd].
    rewrite IH. cbv zeta. cbn [fst snd app].
    match goal with
    | |- context [ssm2044_process_sample x ?a ?c ?r ?gn] =>
        set (p := ssm2044_process_sample x a c r gn)
    end.
    destruct (process_sample_config x (ab pa)
                (CLAMP (if truthy (cutoff_has_signal x) then cb pc else cutoff_float x)
                   lit_20 lit_20000)
                (CLAMP (if truthy (resonance_has_signal x) then rb pr else resonance_float x)
                   lit_0 MAX_RESONANCE)
                (CLAMP (if truthy (gain_has_signal x) then gb pg else gain_float x)
                   lit_0 lit_4))
      as (_ & _ & _ & Hc & Hr & Hg & _).
    fold p in Hc, Hr, Hg. rewrite Hc, Hr, Hg.
    unfold advanced.
    replace (S pa + n)%nat with (pa + S n)%nat by lia.
    destruct (truthy (cutoff_has_signal x)), (truthy (resonance_has_signal x)),
      (truthy (gain_has_signal x));
      repeat (replace (S ?q + n)%nat with (q + S n)%nat by lia); try reflexivity;
      repeat match goal with
             | |- context [(S ?q + n)%nat] => replace (S q + n)%nat with (q + S n)%nat by lia
             end; reflexivity.
Qed.

(** *** The sample routine, step by step *)

(** The sample routine is the coefficient computation followed by
    [cascade] on the pole states and the stage input of line 271. *)
Lemma process_sample_cascade (x : t_ssm2044 D) (input cutoff resonance gain : D) :
  let c := compute_filter_coefficients x cutoff resonance in
  let r := ssm2044_process_sample x input cutoff resonance gain in
  (pole_states (fst r), snd r) = cascade (g c) (pole_states x) (stage_input c input gain)
  /\ feedback_sample (fst r) = snd r
  /\ g (fst r) = g c /\ k (fst r) = k c.
Proof. repeat split. Qed.

(** The first pole state and the feedback memory after a call, written
    out. *)
Lemma process_sample_state1 (x : t_ssm2044 D) (input cutoff resonance gain : D) :
  let c := compute_filter_coefficients x cutoff resonance in
  state1 (fst (ssm2044_process_sample x input cutoff resonance gain)) =
  denormal_fix (state1 x + g c * (stage_input c input gain - state1 x)).
Proof. reflexivity. Qed.

Lemma process_sample_feedback (x : t_ssm2044 D) (input cutoff resonance gain : D) :
  let c := compute_filter_coefficients x cutoff resonance in
  feedback_sample (fst (ssm2044_process_sample x input cutoff resonance gain)) =
  snd (cascade_stages (g c) (pole_states x) (stage_input c input gain)).
Proof. reflexivity. Qed.

(** Every pole state after a call went through [denormal_fix]; the
    feedback memory and the returned value did not. *)
Lemma process_sample_states_fixed (x : t_ssm2044 D) (input cutoff resonance gain : D) :
  let r := ssm2044_process_sample x input cutoff resonance gain in
  exists o1 o2 o3 o4 : D,
    state1 (fst r) = denormal_fix o1 /\ state2 (fst r) = denormal_fix o2 /\
    state3 (fst r) = denormal_fix o3 /\ state4 (fst r) = denormal_fix o4 /\
    feedback_sample (fst r) = o4 /\ snd r = o4.
Proof. cbv zeta. do 4 eexists. repeat split. Qed.

Lemma denormal_fix_cases (v : D) :
  ((d_fabs v <? DENORMAL_THRESHOLD) = true /\ denormal_fix v = lit_0) \/
  ((d_fabs v <? DENORMAL_THRESHOLD) = false /\ denormal_fix v = v).
Proof.
  unfold denormal_fix. destruct (d_fabs v <? DENORMAL_THRESHOLD); auto.
Qed.

(** What is left in a pole state is zero or was not below the threshold. *)
Lemma denormal_fix_flushed (v : D) :
  denormal_fix v = lit_0 \/
  (denormal_fix v = v /\ (d_fabs (denormal_fix v) <? DENORMAL_THRESHOLD) = false).
Proof.
  destruct (denormal_fix_cases v) as [[_ H]|[H1 H2]]; [now left|right].
  rewrite H2. auto.
Qed.

Lemma CLAMP_cases (a lo hi : D) :
  ((a >? lo) = false /\ CLAMP a lo hi = lo) \/
  ((a >? lo) = true /\ (a <? hi) = true /\ CLAMP a lo hi = a) \/
  ((a >? lo) = true /\ (a <? hi) = false /\ CLAMP a lo hi = hi).
Proof.
  unfold CLAMP. destruct (a >? lo); [destruct (a <? hi)|]; auto.
Qed.

(** C3, as amended.  One call of [ssm2044_process_sample] computes
    scaledInput = input * gain, drivenInput = soft_saturation(scaledInput,
    INPUT_DRIVE), drivenFeedback = soft_saturation(feedback_sample,
    FEEDBACK_DRIVE), stageInput = drivenInput + k * drivenFeedback with the
    freshly computed coefficients, runs the four stages in order, each on
    the output of the one before, stores [denormal_fix] of each stage output
    in the pole states, stores the unmodified fourth-stage output in the
    feedback memory and returns that same value. *)
Theorem process_sample_algorithm (x : t_ssm2044 D) (input cutoff resonance gain : D) :
  let c := compute_filter_coefficients x cutoff resonance in
  let scaledInput := input * gain in
  let drivenInput := soft_saturation scaledInput INPUT_DRIVE in
  let drivenFeedback := soft_saturation (feedback_sample x) FEEDBACK_DRIVE in
  let stageInput := drivenInput + k c * drivenFeedback in
  let stageOut1 := state1 x + g c * (stageInput - state1 x) in
  let stageOut2 := state2 x + g c * (stageOut1 - state2 x) in
  let stageOut3 := state3 x + g c * (stageOut2 - state3 x) in
  let stageOut4 := state4 x + g c * (stageOut3 - state4 x) in
  let r := ssm2044_process_sample x input cutoff resonance gain in
  state1 (fst r) = denormal_fix stageOut1 /\
  state2 (fst r) = denormal_fix stageOut2 /\
  state3 (fst r) = denormal_fix stageOut3 /\
  state4 (fst r) = denormal_fix stageOut4 /\
  feedback_sample (fst r) = stageOut4 /\
  snd r = stageOut4.
Proof. repeat split. Qed.

(** C7, as amended.  After every call of [ssm2044_process_sample] each of
    the four pole states is exactly zero or is a value that [denormal_fix]
    did not find below the threshold 1e-15; the feedback memory is the
    returned fourth-stage output as computed, stored without that
    protection, so the fourth pole state is [denormal_fix] of the feedback
    memory. *)
Theorem process_sample_flushes_pole_states
    (x : t_ssm2044 D) (input cutoff resonance gain : D) :
  let r := ssm2044_process_sample x input cutoff resonance gain in
  let flushed (s : D) := s = lit_0 \/ (d_fabs s <? DENORMAL_THRESHOLD) = false in
  flushed (state1 (fst r)) /\ flushed (state2 (fst r)) /\
  flushed (state3 (fst r)) /\ flushed (state4 (fst r)) /\
  feedback_sample (fst r) = snd r /\
  state4 (fst r) = denormal_fix (feedback_sample (fst r)).
Proof.
  cbv zeta.
  destruct (process_sample_states_fixed x input cutoff resonance gain)
    as (o1 & o2 & o3 & o4 & H1 & H2 & H3 & H4 & H5 & H6).
  rewrite H1, H2, H3, H4, H5, H6.
  repeat split;
    match goal with
    | |- denormal_fix ?v = _ \/ _ => destruct (denormal_fix_flushed v) as [E|[_ E]]; auto
    end.
Qed.

(** *** Configuration *)

(** C6, as amended.  [ssm2044_dsp64] accepts every sample rate, also zero
    and negative ones: it stores the rate as given, stores [1.0 / rate]
    without any test, copies the three connection counts and leaves every
    other field of the object as it was: the four pole states, the
    feedback memory, the three held scalars, both coefficients and the two
    oversampling fields. *)
Theorem dsp64_stores_any_rate (x : t_ssm2044 D) (count : nat -> Z) (samplerate : D) :
  let x' := ssm2044_dsp64 x count samplerate in
  sr x' = samplerate /\
  sr_inv x' = lit_1 / samplerate /\
  cutoff_has_signal x' = count 1%nat /\
  resonance_has_signal x' = count 2%nat /\
  gain_has_signal x' = count 3%nat /\
  pole_states x' = pole_states x /\
  feedback_sample x' = feedback_sample x /\
  cutoff_float x' = cutoff_float x /\
  resonance_float x' = resonance_float x /\
  gain_float x' = gain_float x /\
  g x' = g x /\ k x' = k x /\
  oversample_factor x' = oversample_factor x /\
  oversample_buffer x' = oversample_buffer x.
Proof. repeat split. Qed.

(** *** Frame *)

(** C10.  A block processed by [ssm2044_perform64], and a single call of
    [ssm2044_process_sample] or of [compute_filter_coefficients], leave the
    held scalars, the three connection flags, the sample rate, its inverse
    and the oversampling fields as they were; what may differ afterwards is
    the four pole states, the feedback memory, [g] and [k]. *)
Theorem perform64_frame (x : t_ssm2044 D) (ins : nat -> nat -> D) (sampleframes : nat)
    (input cutoff resonance gain : D) :
  same_config x (fst (ssm2044_perform64 x ins sampleframes)) /\
  same_config x (fst (ssm2044_process_sample x input cutoff resonance gain)) /\
  same_config x (compute_filter_coefficients x cutoff resonance).
Proof.
  split; [apply perform_loop_config|split].
  - apply process_sample_config.
  - apply compute_filter_coefficients_config.
Qed.

(** The frames of a block, one by one: the object after [i + 1] frames is
    the sample routine applied to the object after [i] frames, with the
    parameters resolved from the stream or the held scalar of the object
    the block started with, and clamped. *)
Lemma perform64_next_frame (x : t_ssm2044 D) (ins : nat -> nat -> D) (i : nat) :
  let xi := fst (ssm2044_perform64 x ins i) in
  let p := ssm2044_process_sample xi (ins 0%nat i)
             (CLAMP (resolve (cutoff_has_signal x) (ins 1%nat i) (cutoff_float x))
                lit_20 lit_20000)
             (CLAMP (resolve (resonance_has_signal x) (ins 2%nat i) (resonance_float x))
                lit_0 MAX_RESONANCE)
             (CLAMP (resolve (gain_has_signal x) (ins 3%nat i) (gain_float x))
                lit_0 lit_4) in
  ssm2044_perform64 x ins (S i) =
  (fst p, snd (ssm2044_perform64 x ins i) ++ [denormal_fix (snd p)]).
Proof.
  cbv zeta. unfold ssm2044_perform64.
  replace (S i) with (i + 1)%nat by lia.
  rewrite perform_loop_split. cbv zeta.
  set (r1 := perform_loop i x (ins 0%nat) (ins 1%nat) (ins 2%nat) (ins 3%nat) 0 0 0 0).
  destruct (perform_loop_config i x (ins 0%nat) (ins 1%nat) (ins 2%nat) (ins 3%nat) 0 0 0 0)
    as (Hcf & Hrf & Hgf & Hc & Hr & Hg & _).
  fold r1 in Hcf, Hrf, Hgf, Hc, Hr, Hg.
  rewrite perform_loop_S. cbv zeta. cbn [perform_loop fst snd].
  rewrite Hcf, Hrf, Hgf, Hc, Hr, Hg.
  unfold advanced, resolve. cbn [Nat.add].
  destruct (truthy (cutoff_has_signal x)), (truthy (resonance_has_signal x)),
    (truthy (gain_has_signal x)); reflexivity.
Qed.

Lemma perform64_length (x : t_ssm2044 D) (ins : nat -> nat -> D) (n : nat) :
  length (snd (ssm2044_perform64 x ins n)) = n.
Proof. apply perform_loop_length. Qed.

(** The outputs of a longer block start with the outputs of a shorter one. *)
Lemma perform64_prefix (x : t_ssm2044 D) (ins : nat -> nat -> D) (n m : nat) :
  exists rest, snd (ssm2044_perform64 x ins (n + m)) = snd (ssm2044_perform64 x ins n) ++ rest.
Proof.
  unfold ssm2044_perform64. rewrite perform_loop_split. cbv zeta. cbn [snd]. eauto.
Qed.

(** Sample [i] of a block of [n > i] frames. *)
Lemma perform64_nth (x : t_ssm2044 D) (ins : nat -> nat -> D) (n i : nat) (d : D) :
  (i < n)%nat ->
  nth i (snd (ssm2044_perform64 x ins n)) d =
  denormal_fix (snd (ssm2044_process_sample (fst (ssm2044_perform64 x ins i)) (ins 0%nat i)
     (CLAMP (resolve (cutoff_has_signal x) (ins 1%nat i) (cutoff_float x)) lit_20 lit_20000)
     (CLAMP (resolve (resonance_has_signal x) (ins 2%nat i) (resonance_float x))
        lit_0 MAX_RESONANCE)
     (CLAMP (resolve (gain_has_signal x) (ins 3%nat i) (gain_float x)) lit_0 lit_4))).
Proof.
  intros Hi.
  replace n with (S i + (n - S i))%nat by lia.
  destruct (perform64_prefix x ins (S i) (n - S i)) as [rest ->].
  rewrite (perform64_next_frame x ins i). cbv zeta. cbn [snd].
  rewrite <- app_assoc. rewrite app_nth2; rewrite perform64_length; [|lia].
  now rewrite Nat.sub_diag.
Qed.

End Generic.

(** ** Blocks, buffers and the fields the block routine reads *)

Section Blocks.

Context {D : Type} {ops : DoubleOps D}.
Local Open Scope double_scope.

(** The loop only looks at the part of each buffer that lies at or after
    its read pointer, and at a parameter buffer only when the inlet has a
    signal. *)
Lemma perform_loop_buffers (n : nat) :
  forall (x : t_ssm2044 D) (ab cb rb gb ab' cb' rb' gb' : nat -> D)
         (pa pc pr pg pa' pc' pr' pg' : nat),
    (forall i, (i < n)%nat -> ab (pa + i)%nat = ab' (pa' + i)%nat) ->
    (truthy (cutoff_has_signal x) = true ->
     forall i, (i < n)%nat -> cb (pc + i)%nat = cb' (pc' + i)%nat) ->
    (truthy (resonance_has_signal x) = true ->
     forall i, (i < n)%nat -> rb (pr + i)%nat = rb' (pr' + i)%nat) ->
    (truthy (gain_has_signal x) = true ->
     forall i, (i < n)%nat -> gb (pg + i)%nat = gb' (pg' + i)%nat) ->
    perform_loop n x ab cb rb gb pa pc pr pg =
    perform_loop n x ab' cb' rb' gb' pa' pc' pr' pg'.
Proof.
  induction n as [|n IH]; intros x ab cb rb gb ab' cb' rb' gb' pa pc pr pg pa' pc' pr' pg'
    Ha Hc Hr Hg.
  - reflexivity.
  - rewrite !perform_loop_S. cbv zeta.
    assert (ab pa = ab' pa') as Ea.
    { specialize (Ha 0%nat ltac:(lia)). now rewrite !Nat.add_0_r in Ha. }
    assert ((if truthy (cutoff_has_signal x) then cb pc else cutoff_float x) =
            (if truthy (cutoff_has_signal x) then cb' pc' else cutoff_float x)) as Ec.
    { destruct (truthy (cutoff_has_signal x)); [|reflexivity].
      specialize (Hc eq_refl 0%nat ltac:(lia)). now rewrite !Nat.add_0_r in Hc. }
    assert ((if truthy (resonance_has_signal x) then rb pr else resonance_float x) =
            (if truthy (resonance_has_signal x) then rb' pr' else resonance_float x)) as Er.
    { destruct (truthy (resonance_has_signal x)); [|reflexivity].
      specialize (Hr eq_refl 0%nat ltac:(lia)). now rewrite !Nat.add_0_r in Hr. }
    assert ((if truthy (gain_has_signal x) then gb pg else gain_float x) =
            (if truthy (gain_has_signal x) then gb' pg' else gain_float x)) as Eg.
    { destruct (truthy (gain_has_signal x)); [|reflexivity].
      specialize (Hg eq_refl 0%nat ltac:(lia)). now rewrite !Nat.add_0_r in Hg. }
    rewrite Ea, Ec, Er, Eg.
    match goal with
    | |- context [ssm2044_process_sample x ?a ?c ?r ?gn] =>
        set (p := ssm2044_process_sample x a c r gn)
    end.
    destruct (process_sample_config x (ab' pa')
                (CLAMP (if truthy (cutoff_has_signal x) then cb' pc' else cutoff_float x)
                   lit_20 lit_20000)
                (CLAMP (if truthy (resonance_has_signal x) then rb' pr' else resonance_float x)
                   lit_0 MAX_RESONANCE)
                (CLAMP (if truthy (gain_has_signal x) then gb' pg' else gain_float x)
                   lit_0 lit_4))
      as (_ & _ & _ & Fc & Fr & Fg & _).
    fold p in Fc, Fr, Fg.
    rewrite (IH (fst p) ab cb rb gb ab' cb' rb' gb'
               (S pa) (if truthy (cutoff_has_signal x) then S pc else pc)
               (if truthy (resonance_has_signal x) then S pr else pr)
               (if truthy (gain_has_signal x) then S pg else pg)
               (S pa') (if truthy (cutoff_has_signal x) then S pc' else pc')
               (if truthy (resonance_has_signal x) then S pr' else pr')
               (if truthy (gain_has_signal x) then S pg' else pg')); [reflexivity| | | |].
    + intros i Hi. specialize (Ha (S i) ltac:(lia)).
      now rewrite !Nat.add_succ_r in Ha.
    + rewrite Fc. intros Ht i Hi. rewrite Ht. specialize (Hc Ht (S i) ltac:(lia)).
      now rewrite !Nat.add_succ_r in Hc.
    + rewrite Fr. intros Ht i Hi. rewrite Ht. specialize (Hr Ht (S i) ltac:(lia)).
      now rewrite !Nat.add_succ_r in Hr.
    + rewrite Fg. intros Ht i Hi. rewrite Ht. specialize (Hg Ht (S i) ltac:(lia)).
      now rewrite !Nat.add_succ_r in Hg.
Qed.

(** A block of [n + m] frames is a block of the first [n] frames followed
    by a block of the remaining [m] frames. *)
Lemma perform64_append_blocks (x : t_ssm2044 D) (ins : nat -> nat -> D) (n m : nat) :
  ssm2044_perform64 x ins (n + m) =
  let r1 := ssm2044_perform64 x ins n in
  let r2 := ssm2044_perform64 (fst r1) (later_frames ins n) m in
  (fst r2, snd r1 ++ snd r2).
Proof.
  cbv zeta. unfold ssm2044_perform64. rewrite perform_loop_split. cbv zeta.
  set (r1 := perform_loop n x (ins 0%nat) (ins 1%nat) (ins 2%nat) (ins 3%nat) 0 0 0 0).
  destruct (perform_loop_config n x (ins 0%nat) (ins 1%nat) (ins 2%nat) (ins 3%nat) 0 0 0 0)
    as (_ & _ & _ & Hc & Hr & Hg & _).
  fold r1 in Hc, Hr, Hg.
  rewrite (perform_loop_buffers m (fst r1)
             (ins 0%nat) (ins 1%nat) (ins 2%nat) (ins 3%nat)
             (later_frames ins n 0%nat) (later_frames ins n 1%nat)
             (later_frames ins n 2%nat) (later_frames ins n 3%nat)
             (0 + n) (advanced (cutoff_has_signal x) 0 n)
             (advanced (resonance_has_signal x) 0 n) (advanced (gain_has_signal x) 0 n)
             0 0 0 0); [reflexivity| | | |].
  - intros i _. reflexivity.
  - rewrite Hc. intros Ht i _. unfold advanced, later_frames. now rewrite Ht.
  - rewrite Hr. intros Ht i _. unfold advanced, later_frames. now rewrite Ht.
  - rewrite Hg. intros Ht i _. unfold advanced, later_frames. now rewrite Ht.
Qed.

(** X1.  The block size does not matter: cutting a block of [n] frames at
    any frame [j] and processing the two parts one after the other, the
    second on the object the first left, gives the same object and the same
    samples as processing the block in one go. *)
Theorem perform64_block_split (x : t_ssm2044 D) (ins : nat -> nat -> D) (n j : nat) :
  (j <= n)%nat ->
  ssm2044_perform64 x ins n =
  let r1 := ssm2044_perform64 x ins j in
  let r2 := ssm2044_perform64 (fst r1) (later_frames ins j) (n - j) in
  (fst r2, snd r1 ++ snd r2).
Proof.
  intros Hj. replace n with (j + (n - j))%nat at 1 by lia.
  apply perform64_append_blocks.
Qed.

(** The object after one more frame. *)
Lemma perform64_next_state (x : t_ssm2044 D) (ins : nat -> nat -> D) (i : nat) :
  fst (ssm2044_perform64 x ins (S i)) =
  fst (ssm2044_process_sample (fst (ssm2044_perform64 x ins i)) (ins 0%nat i)
         (CLAMP (resolve (cutoff_has_signal x) (ins 1%nat i) (cutoff_float x))
            lit_20 lit_20000)
         (CLAMP (resolve (resonance_has_signal x) (ins 2%nat i) (resonance_float x))
            lit_0 MAX_RESONANCE)
         (CLAMP (resolve (gain_has_signal x) (ins 3%nat i) (gain_float x))
            lit_0 lit_4)).
Proof. rewrite perform64_next_frame. reflexivity. Qed.

(** X2.  The sample written for frame [i] is the fourth pole state that
    frame leaves in the object, and is zero or a value [denormal_fix] did
    not find below the threshold. *)
Theorem perform64_output_is_fourth_pole_state
    (x : t_ssm2044 D) (ins : nat -> nat -> D) (n i : nat) (d : D) :
  (i < n)%nat ->
  let y := nth i (snd (ssm2044_perform64 x ins n)) d in
  y = state4 (fst (ssm2044_perform64 x ins (S i))) /\
  (y = lit_0 \/ (d_fabs y <? DENORMAL_THRESHOLD) = false).
Proof.
  intros Hi. cbv zeta.
  rewrite (perform64_nth x ins n i d Hi), (perform64_next_frame x ins i).
  cbv zeta. cbn [fst].
  split; [reflexivity|].
  match goal with
  | |- denormal_fix ?v = _ \/ _ => destruct (denormal_fix_flushed v) as [E|[_ E]]; auto
  end.
Qed.

Lemma process_sample_agree (x x' : t_ssm2044 D) (input cutoff resonance gain : D) :
  pole_states x = pole_states x' -> feedback_sample x = feedback_sample x' ->
  sr x = sr x' -> sr_inv x = sr_inv x' ->
  let p := ssm2044_process_sample x input cutoff resonance gain in
  let p' := ssm2044_process_sample x' input cutoff resonance gain in
  snd p = snd p' /\
  pole_states (fst p) = pole_states (fst p') /\
  feedback_sample (fst p) = feedback_sample (fst p') /\
  g (fst p) = g (fst p') /\ k (fst p) = k (fst p').
Proof.
  destruct x, x'. unfold pole_states. cbn [state1 state2 state3 state4 feedback_sample sr sr_inv].
  intros Hp Hf Hs Hi. injection Hp as -> -> -> ->. subst.
  cbv zeta. repeat split.
Qed.

Lemma perform_loop_agree (n : nat) :
  forall (x x' : t_ssm2044 D) (ab cb rb gb : nat -> D) (pa pc pr pg : nat),
    reads_agree x x' ->
    let r := perform_loop n x ab cb rb gb pa pc pr pg in
    let r' := perform_loop n x' ab cb rb gb pa pc pr pg in
    snd r = snd r' /\ reads_agree (fst r) (fst r') /\
    (n <> 0%nat -> g (fst r) = g (fst r') /\ k (fst r) = k (fst r')).
Proof.
  induction n as [|n IH]; intros x x' ab cb rb gb pa pc pr pg Hx; cbv zeta.
  - cbn [perform_loop fst snd]. split; [reflexivity|]. split; [exact Hx|].
    intros C. now elim C.
  - rewrite !perform_loop_S. cbv zeta. cbn [fst snd].
    pose proof Hx as (Hp & Hf & Hs & Hi & Tc & Tr & Tg & Vc & Vr & Vg).
    rewrite <- Tc, <- Tr, <- Tg.
    assert ((if truthy (cutoff_has_signal x) then cb pc else cutoff_float x) =
            (if truthy (cutoff_has_signal x) then cb pc else cutoff_float x')) as Ec.
    { destruct (truthy (cutoff_has_signal x)); [reflexivity|now apply Vc]. }
    assert ((if truthy (resonance_has_signal x) then rb pr else resonance_float x) =
            (if truthy (resonance_has_signal x) then rb pr else resonance_float x')) as Er.
    { destruct (truthy (resonance_has_signal x)); [reflexivity|now apply Vr]. }
    assert ((if truthy (gain_has_signal x) then gb pg else gain_float x) =
            (if truthy (gain_has_signal x) then gb pg else gain_float x')) as Eg.
    { destruct (truthy (gain_has_signal x)); [reflexivity|now apply Vg]. }
    rewrite <- Ec, <- Er, <- Eg.
    set (c := CLAMP (if truthy (cutoff_has_signal x) then cb pc else cutoff_float x)
                lit_20 lit_20000).
    set (r := CLAMP (if truthy (resonance_has_signal x) then rb pr else resonance_float x)
                lit_0 MAX_RESONANCE).
    set (gn := CLAMP (if truthy (gain_has_signal x) then gb pg else gain_float x)
                 lit_0 lit_4).
    destruct (process_sample_agree x x' (ab pa) c r gn Hp Hf Hs Hi)
      as (Ey & Ep & Efb & Egg & Ekk).
    destruct (process_sample_config x (ab pa) c r gn)
      as (Cc & Cr & Cg & Fc & Fr & Fg & Cs & Ci & _).
    destruct (process_sample_config x' (ab pa) c r gn)
      as (Cc' & Cr' & Cg' & Fc' & Fr' & Fg' & Cs' & Ci' & _).
    set (p := ssm2044_process_sample x (ab pa) c r gn) in *.
    set (p' := ssm2044_process_sample x' (ab pa) c r gn) in *.
    assert (reads_agree (fst p) (fst p')) as Hn.
    { unfold reads_agree.
      rewrite Fc, Fr, Fg, Fc', Fr', Fg', Cc, Cr, Cg, Cc', Cr', Cg', Cs, Ci, Cs', Ci'.
      repeat split; assumption. }
    destruct (IH (fst p) (fst p') ab cb rb gb (S pa)
                (if truthy (cutoff_has_signal x) then S pc else pc)
                (if truthy (resonance_has_signal x) then S pr else pr)
                (if truthy (gain_has_signal x) then S pg else pg) Hn) as (Eo & Ha & Hgk).
    cbv zeta in Eo, Ha, Hgk.
    split; [now rewrite Ey, Eo|]. split; [exact Ha|].
    intros _. destruct n as [|n'].
    + cbn [perform_loop fst]. split; assumption.
    + apply Hgk. discriminate.
Qed.

(** X3.  What the block routine does not read does not matter: two objects
    that agree on the pole states, the feedback memory, the sample-rate
    fields, the connection status and the held scalars of the inlets
    without a signal produce the same samples, whatever their [g], [k],
    oversampling fields and the held scalars of connected inlets are; after
    a block of at least one frame their [g] and [k] agree as well. *)
Theorem perform64_reads_only (x x' : t_ssm2044 D) (ins : nat -> nat -> D) (n : nat) :
  reads_agree x x' ->
  snd (ssm2044_perform64 x ins n) = snd (ssm2044_perform64 x' ins n) /\
  reads_agree (fst (ssm2044_perform64 x ins n)) (fst (ssm2044_perform64 x' ins n)) /\
  (n <> 0%nat ->
   g (fst (ssm2044_perform64 x ins n)) = g (fst (ssm2044_perform64 x' ins n)) /\
   k (fst (ssm2044_perform64 x ins n)) = k (fst (ssm2044_perform64 x' ins n))).
Proof.
  intros Hx. apply (perform_loop_agree n x x' _ _ _ _ 0%nat 0%nat 0%nat 0%nat Hx).
Qed.

(** X4.  A float or an int sent to a parameter inlet that has a signal
    connected changes no sample the block routine writes; sent to any inlet
    other than 1, 2 and 3 it changes nothing at all. *)
Theorem float_ignored_while_signal_connected
    (x : t_ssm2044 D) (inlet : Z) (f : D) (to_double : Z -> D) (v : Z)
    (ins : nat -> nat -> D) (n : nat) :
  (match inlet with
   | 1%Z => truthy (cutoff_has_signal x) = true
   | 2%Z => truthy (resonance_has_signal x) = true
   | 3%Z => truthy (gain_has_signal x) = true
   | _ => True
   end ->
   snd (ssm2044_perform64 (ssm2044_float x inlet f) ins n) = snd (ssm2044_perform64 x ins n) /\
   snd (ssm2044_perform64 (ssm2044_int to_double x inlet v) ins n) =
   snd (ssm2044_perform64 x ins n)) /\
  (inlet <> 1%Z -> inlet <> 2%Z -> inlet <> 3%Z ->
   ssm2044_float x inlet f = x /\ ssm2044_int to_double x inlet v = x).
Proof.
  split.
  - intros Hs.
    assert (reads_agree (ssm2044_float x inlet f) x /\
            reads_agree (ssm2044_int to_double x inlet v) x) as [H1 H2].
    { destruct inlet as [|[p|p|]|p]; try destruct p;
        unfold ssm2044_float, ssm2044_int;
        split; unfold reads_agree;
        cbn [set_cutoff_float set_resonance_float set_gain_float pole_states
             state1 state2 state3 state4 feedback_sample sr sr_inv
             cutoff_has_signal resonance_has_signal gain_has_signal
             cutoff_float resonance_float gain_float];
        repeat split; try reflexivity; intros Hf; congruence. }
    split.
    + apply (perform_loop_agree n _ _ _ _ _ _ 0%nat 0%nat 0%nat 0%nat H1).
    + apply (perform_loop_agree n _ _ _ _ _ _ 0%nat 0%nat 0%nat 0%nat H2).
  - intros N1 N2 N3.
    destruct inlet as [|[p|p|]|p]; try destruct p; try reflexivity; try congruence;
      split; reflexivity.
Qed.

End Blocks.

(** ** [double] read as a real number *)

Section RealModel.

Local Open Scope R_scope.

(** Exposes the operations of [real_ops]. *)
Ltac real_ops_unfold :=
  cbn [d_add d_sub d_mul d_div d_lt d_le d_fabs d_tan d_tanh
       lit_0 lit_1 lit_2 lit_4 lit_0_5 lit_0_45 lit_0_99 lit_1_5
       lit_20 lit_1000 lit_20000 lit_PI lit_1e_15 real_ops] in *.

Lemma real_lt_true (a b : R) : d_lt a b = true <-> a < b.
Proof. cbn. destruct (Rlt_dec a b); split; intros; auto; try discriminate; contradiction. Qed.

Lemma real_lt_false (a b : R) : d_lt a b = false <-> b <= a.
Proof.
  cbn. destruct (Rlt_dec a b); split; intros; auto; try discriminate; lra.
Qed.

Lemma real_le_true (a b : R) : d_le a b = true <-> a <= b.
Proof. cbn. destruct (Rle_dec a b); split; intros; auto; try discriminate; contradiction. Qed.

Lemma real_le_false (a b : R) : d_le a b = false <-> b < a.
Proof.
  cbn. destruct (Rle_dec a b); split; intros; auto; try discriminate; lra.
Qed.

(** [CLAMP] on reals, for any pair of bounds. *)
Lemma CLAMP_real (a lo hi : R) :
  (a <= lo /\ CLAMP a lo hi = lo) \/
  (lo < a < hi /\ CLAMP a lo hi = a) \/
  (lo < a /\ hi <= a /\ CLAMP a lo hi = hi).
Proof.
  destruct (CLAMP_cases a lo hi) as [[H1 H2]|[(H1 & H2 & H3)|(H1 & H2 & H3)]].
  - left. apply real_lt_false in H1. auto.
  - right; left. apply real_lt_true in H1, H2. auto.
  - right; right. apply real_lt_true in H1. apply real_lt_false in H2. auto.
Qed.

Lemma CLAMP_real_range (a lo hi : R) : lo <= hi -> lo <= CLAMP a lo hi <= hi.
Proof.
  intros Hb. destruct (CLAMP_real a lo hi) as [[H1 ->]|[[H1 ->]|(H1 & H2 & ->)]]; lra.
Qed.

Lemma CLAMP_real_monotone (a b lo hi : R) :
  lo <= hi -> a <= b -> CLAMP a lo hi <= CLAMP b lo hi.
Proof.
  intros Hb Hab.
  destruct (CLAMP_real a lo hi) as [[H1 ->]|[[H1 ->]|(H1 & H2 & ->)]];
    destruct (CLAMP_real b lo hi) as [[H3 ->]|[[H3 ->]|(H3 & H4 & ->)]]; lra.
Qed.

Lemma denormal_fix_real (v : R) :
  (Rabs v < 1e-15 /\ denormal_fix v = 0) \/ (1e-15 <= Rabs v /\ denormal_fix v = v).
Proof.
  destruct (denormal_fix_cases v) as [[H1 H2]|[H1 H2]].
  - left. apply real_lt_true in H1. auto.
  - right. apply real_lt_false in H1. auto.
Qed.

Lemma tanh_0 : tanh 0 = 0.
Proof. unfold tanh. rewrite sinh_0. lra. Qed.

Lemma cosh_pos (x : R) : 0 < cosh x.
Proof.
  unfold cosh. pose proof (exp_pos x). pose proof (exp_pos (- x)). lra.
Qed.

Lemma tanh_pos (x : R) : 0 < x -> 0 < tanh x.
Proof.
  intros Hx. unfold tanh. apply Rdiv_lt_0_compat; [|apply cosh_pos].
  unfold sinh. assert (exp (- x) < exp x) by (apply exp_increasing; lra). lra.
Qed.

Lemma soft_saturation_real (input drive : R) :
  (drive <= 0 /\ soft_saturation input drive = input) \/
  (0 < drive /\ soft_saturation input drive = tanh (input * drive) / drive).
Proof.
  unfold soft_saturation.
  destruct (d_le drive lit_0) eqn:E.
  - left. apply real_le_true in E. auto.
  - right. apply real_le_false in E. auto.
Qed.

(** *** Saturation *)

(** C5.  With a drive that is zero or negative [soft_saturation] returns
    its input unchanged, and with a positive drive it maps 0 to exactly 0. *)
Theorem soft_saturation_identity_and_zero (x d : R) :
  (d <= 0 -> soft_saturation x d = x) /\ (0 < d -> soft_saturation 0 d = 0).
Proof.
  split; intros Hd.
  - destruct (soft_saturation_real x d) as [[_ H]|[H _]]; [exact H|lra].
  - destruct (soft_saturation_real 0 d) as [[H _]|[_ H]]; [lra|].
    rewrite H, Rmult_0_l, tanh_0. unfold Rdiv. apply Rmult_0_l.
Qed.

Lemma soft_saturation_identity_and_zero_witness :
  soft_saturation 0.25 (-1) = 0.25 /\ soft_saturation 0 1.5 = 0.
Proof.
  split.
  - apply (proj1 (soft_saturation_identity_and_zero 0.25 (-1))). lra.
  - apply (proj2 (soft_saturation_identity_and_zero 0.25 1.5)). lra.
Defined.

(** C4, as amended.  For a positive drive [soft_saturation] returns
    tanh(x * d) / d: the tanh curve rescaled by the drive, with no
    even-harmonic term added. *)
Theorem soft_saturation_is_scaled_tanh (x d : R) :
  0 < d -> soft_saturation x d = tanh (x * d) / d.
Proof.
  intros Hd. destruct (soft_saturation_real x d) as [[H _]|[_ H]]; [lra|exact H].
Qed.

Lemma soft_saturation_is_scaled_tanh_witness :
  soft_saturation 1 1.5 = tanh (1 * 1.5) / 1.5.
Proof. apply soft_saturation_is_scaled_tanh. lra. Defined.

(** C4 as stated fails: at x = 1, d = 1 the function returns tanh(1), not
    tanh(1) + 0.05 * tanh(0.5)^2. *)
Lemma soft_saturation_no_even_harmonic :
  soft_saturation 1 1 <> (tanh (1 * 1) + 0.05 * (tanh (1 * 1 * 0.5)) ^ 2) / 1.
Proof.
  destruct (soft_saturation_real 1 1) as [[H _]|[_ ->]]; [lra|].
  pose proof (tanh_pos (1 * 1 * 0.5)) as Hp.
  assert (0 < tanh (1 * 1 * 0.5)) as H by (apply Hp; lra).
  assert (0 < tanh (1 * 1 * 0.5) ^ 2) by (apply pow_lt; exact H).
  lra.
Qed.

(** *** Coefficients *)

Lemma g_range (x : t_ssm2044 R) (cutoff resonance : R) :
  0 <= g (compute_filter_coefficients x cutoff resonance) <= 0.99.
Proof.
  cbn [compute_filter_coefficients g set_g set_k].
  apply (CLAMP_real_range _ 0 0.99). lra.
Qed.

(** C2, as amended.  The feedback gain is the resonance argument times
    RESONANCE_SCALE = 4.0 and nothing else: no compensation divisor, no cap.
    With the resonance clamped to [0, MAX_RESONANCE] as the block routine
    passes it, the gain lies in [0, 16]. *)
Theorem feedback_gain_is_scaled_resonance (x : t_ssm2044 R) (cutoff resonance : R) :
  k (compute_filter_coefficients x cutoff resonance) = resonance * 4 /\
  0 <= k (compute_filter_coefficients x cutoff (CLAMP resonance lit_0 MAX_RESONANCE)) <= 16.
Proof.
  split; [reflexivity|].
  cbn [compute_filter_coefficients k set_g set_k].
  pose proof (CLAMP_real_range resonance 0 4) as H.
  unfold RESONANCE_SCALE, MAX_RESONANCE. real_ops_unfold. lra.
Qed.

(** C2 as stated fails: at resonance 4 the gain is 16, which is above 4 and
    is not 4 * 4 / (1 + 4 * 0.5). *)
Lemma feedback_gain_uncapped :
  let x := compute_filter_coefficients (ssm2044_new 48000) 1000 4 in
  k x = 16 /\ 4 < k x /\ k x <> 4 * 4 / (1 + 4 * 0.5).
Proof.
  cbv zeta. cbn [compute_filter_coefficients k set_g set_k].
  unfold RESONANCE_SCALE. real_ops_unfold. repeat split; lra.
Qed.

(** *** A very small input into a freshly created object *)

Lemma tanh_lt_double (v : R) : 0 < v <= 1 / 2 -> tanh v < 2 * v.
Proof.
  intros [Hv0 Hv1].
  assert (1 + - v < exp (- v)) as Hb by (apply exp_ineq1; lra).
  pose proof (exp_pos v) as Ha. pose proof (exp_pos (- v)) as Hb0.
  assert (exp v * exp (- v) = 1) as Hab.
  { rewrite <- exp_plus. replace (v + - v) with 0 by lra. apply exp_0. }
  unfold tanh, sinh, cosh.
  set (a := exp v) in *. set (b := exp (- v)) in *.
  apply (Rmult_lt_reg_r ((a + b) / 2)); [lra|].
  replace ((a - b) / 2 / ((a + b) / 2) * ((a + b) / 2)) with ((a - b) / 2) by (field; lra).
  assert (a * (1 - v) < 1) by nra.
  nra.
Qed.

(** The warped frequency of line 302 for 1 kHz at 48 kHz is positive. *)
Lemma warped_1k_48k_pos :
  0 < tan (2 * 3.14159265358979323846 * 1000 * (1 / 48000) * 0.5).
Proof.
  pose proof PI2_3_2. apply tan_gt_0; lra.
Qed.

Lemma g_1k_48k (resonance : R) :
  0 < g (compute_filter_coefficients (ssm2044_new 48000) 1000 resonance) <= 0.99.
Proof.
  split; [|apply g_range].
  cbn [compute_filter_coefficients g set_g set_k ssm2044_new sr sr_inv].
  unfold PI. real_ops_unfold.
  destruct (CLAMP_real 1000 20 (48000 * 0.45)) as [[H _]|[[_ ->]|(_ & H & _)]]; try lra.
  pose proof warped_1k_48k_pos as Ht.
  set (t := tan _) in *.
  assert (0 < t / (1 + t)) as Hq by (apply Rdiv_lt_0_compat; lra).
  destruct (CLAMP_real (t / (1 + t)) 0 0.99) as [[H _]|[[_ ->]|(_ & _ & ->)]]; lra.
Qed.

(** The stage input produced by the input sample 1e-16 at unit gain. *)
Lemma tiny_stage_input (x : t_ssm2044 R) :
  feedback_sample x = 0 ->
  0 < stage_input x 1e-16 1 < 1e-15.
Proof.
  intros Hfb. unfold stage_input, INPUT_DRIVE, FEEDBACK_DRIVE. rewrite Hfb.
  real_ops_unfold.
  destruct (soft_saturation_real 0 2) as [[H _]|[_ ->]]; [lra|].
  destruct (soft_saturation_real (1e-16 * 1) 1.5) as [[H _]|[_ ->]]; [lra|].
  rewrite Rmult_0_l, tanh_0.
  assert (0 < tanh (1e-16 * 1 * 1.5)) as Hp by (apply tanh_pos; lra).
  assert (tanh (1e-16 * 1 * 1.5) < 2 * (1e-16 * 1 * 1.5)) as Hu by (apply tanh_lt_double; lra).
  set (th := tanh _) in *.
  replace (th / 1.5 + k x * (0 / 2)) with (th / 1.5) by lra.
  split; [apply Rdiv_lt_0_compat; lra|].
  apply (Rmult_lt_reg_r 1.5); [lra|].
  replace (th / 1.5 * 1.5) with th by (field; lra). lra.
Qed.

(** C3 as stated fails where a stage output is below the threshold: the
    object just created, fed the sample 1e-16, gets 0 in its first pole
    state although the first stage output is not 0. *)
Lemma pole_state_is_not_raw_stage_output :
  let x := ssm2044_new 48000 in
  let c := compute_filter_coefficients x 1000 0.5 in
  let stageInput :=
    soft_saturation (1e-16 * 1) INPUT_DRIVE
    + k c * soft_saturation (feedback_sample x) FEEDBACK_DRIVE in
  let stageOut1 := state1 x + g c * (stageInput - state1 x) in
  state1 (fst (ssm2044_process_sample x 1e-16 1000 0.5 1)) <> stageOut1.
Proof.
  cbv zeta.
  rewrite (process_sample_state1 (ssm2044_new 48000) 1e-16 1000 0.5 1).
  cbv zeta. unfold stage_input. real_ops_unfold.
  pose proof (g_1k_48k 0.5) as Hg.
  pose proof (tiny_stage_input (compute_filter_coefficients (ssm2044_new 48000) 1000 0.5)
                eq_refl) as HF.
  unfold stage_input in HF. real_ops_unfold.
  change (feedback_sample (compute_filter_coefficients (ssm2044_new 48000) 1000 0.5))
    with (feedback_sample (ssm2044_new (ops := real_ops) 48000)) in HF.
  set (gg := g _) in *. set (F := _ + _) in *.
  change (state1 (ssm2044_new (ops := real_ops) 48000)) with 0.
  assert (0 < 0 + gg * (F - 0) < 1e-15) as Ho by nra.
  destruct (denormal_fix_real (0 + gg * (F - 0))) as [[_ ->]|[Ha _]].
  - lra.
  - rewrite Rabs_pos_eq in Ha; lra.
Qed.

(** C7 as stated fails for the feedback memory: the object just created,
    fed the sample 1e-16, keeps a feedback memory that is below the
    threshold in magnitude and is not zero. *)
Lemma feedback_memory_keeps_subthreshold_value :
  let x' := fst (ssm2044_process_sample (ssm2044_new 48000) 1e-16 1000 0.5 1) in
  Rabs (feedback_sample x') < 1e-15 /\ feedback_sample x' <> 0.
Proof.
  cbv zeta.
  rewrite (process_sample_feedback (ssm2044_new 48000) 1e-16 1000 0.5 1).
  cbv zeta. cbn [cascade_stages pole_states snd]. unfold stage_input. real_ops_unfold.
  pose proof (g_1k_48k 0.5) as Hg.
  pose proof (tiny_stage_input (compute_filter_coefficients (ssm2044_new 48000) 1000 0.5)
                eq_refl) as HF.
  unfold stage_input in HF. real_ops_unfold.
  change (feedback_sample (compute_filter_coefficients (ssm2044_new 48000) 1000 0.5))
    with (feedback_sample (ssm2044_new (ops := real_ops) 48000)) in HF.
  set (gg := g _) in *. set (F := _ + _) in *.
  change (state1 (ssm2044_new (ops := real_ops) 48000)) with 0.
  change (state2 (ssm2044_new (ops := real_ops) 48000)) with 0.
  change (state3 (ssm2044_new (ops := real_ops) 48000)) with 0.
  change (state4 (ssm2044_new (ops := real_ops) 48000)) with 0.
  assert (0 < gg * F < 1e-15) as H1 by nra.
  assert (0 < gg * (gg * F) < 1e-15) as H2 by nra.
  assert (0 < gg * (gg * (gg * F)) < 1e-15) as H3 by nra.
  assert (0 < gg * (gg * (gg * (gg * F))) < 1e-15) as H4 by nra.
  replace (0 + gg * (0 + gg * (0 + gg * (0 + gg * (F - 0) - 0) - 0) - 0))
    with (gg * (gg * (gg * (gg * F)))) by ring.
  rewrite Rabs_pos_eq; lra.
Qed.

(** *** The integrator gain in exact arithmetic *)

Lemma ratio_monotone (a b : R) : 0 <= a <= b -> a / (1 + a) <= b / (1 + b).
Proof.
  intros [Ha Hab].
  replace (a / (1 + a)) with (1 - / (1 + a)) by (field; lra).
  replace (b / (1 + b)) with (1 - / (1 + b)) by (field; lra).
  assert (/ (1 + b) <= / (1 + a)) by (apply Rinv_le_contravar; lra).
  lra.
Qed.

(** The argument of [tan] in line 302 stays inside (0, PI/2) when the
    clamp of line 295 has its bounds in order. *)
Lemma warp_angle_range (rate c : R) :
  0 < rate -> 20 <= c <= rate * 0.45 ->
  0 < 2 * 3.14159265358979323846 * c * (1 / rate) * 0.5 < Rtrigo1.PI / 2.
Proof.
  intros Hr [Hc1 Hc2]. pose proof PI2_3_2 as Hpi.
  assert (0 < 1 / rate) as Hu by (apply Rdiv_lt_0_compat; lra).
  assert (rate * (1 / rate) = 1) as Hru by (field; lra).
  generalize dependent (1 / rate). intros u Hu Hru.
  assert (c * u <= 0.45) as Hw1 by nra.
  assert (0 < c * u) as Hw0 by nra.
  replace (2 * 3.14159265358979323846 * c * u * 0.5)
    with (3.14159265358979323846 * (c * u)) by lra.
  generalize dependent (c * u). intros w Hw1 Hw0.
  assert (3.14159265358979323846 * w <= 3.14159265358979323846 * 0.45) as Hm
    by (apply Rmult_le_compat_l; lra).
  assert (0 < 3.14159265358979323846 * w) by (apply Rmult_lt_0_compat; lra).
  split; lra.
Qed.

(** With [double] read as exact real numbers and a sample rate of at least
    20 / 0.45 Hz, the gain does not decrease when the cutoff grows.  This
    is a fact about the formulas of lines 295-309 only: the binary64
    program rounds each operation and does not inherit it, as the
    section on the gain in binary64 shows. *)
Lemma g_monotone_in_cutoff (x : t_ssm2044 R) (c1 c2 r1 r2 : R) :
  sr_inv x = 1 / sr x -> 20 <= sr x * 0.45 -> c1 <= c2 ->
  g (compute_filter_coefficients x c1 r1) <= g (compute_filter_coefficients x c2 r2).
Proof.
  intros Hinv Hrate Hc.
  cbn [compute_filter_coefficients g set_g set_k]. unfold PI.
  rewrite !Hinv. real_ops_unfold.
  assert (0 < sr x) as Hpos by lra.
  pose proof (CLAMP_real_range c1 20 (sr x * 0.45) Hrate) as Hk1.
  pose proof (CLAMP_real_range c2 20 (sr x * 0.45) Hrate) as Hk2.
  pose proof (CLAMP_real_monotone c1 c2 20 (sr x * 0.45) Hrate Hc) as Hk.
  set (k1 := CLAMP c1 20 (sr x * 0.45)) in *.
  set (k2 := CLAMP c2 20 (sr x * 0.45)) in *.
  pose proof (warp_angle_range (sr x) k1 Hpos Hk1) as Ha1.
  pose proof (warp_angle_range (sr x) k2 Hpos Hk2) as Ha2.
  assert (0 < 1 / sr x) as Hu by (apply Rdiv_lt_0_compat; lra).
  assert (2 * 3.14159265358979323846 * k1 * (1 / sr x) * 0.5
          <= 2 * 3.14159265358979323846 * k2 * (1 / sr x) * 0.5) as Hle by nra.
  set (a1 := 2 * 3.14159265358979323846 * k1 * (1 / sr x) * 0.5) in *.
  set (a2 := 2 * 3.14159265358979323846 * k2 * (1 / sr x) * 0.5) in *.
  assert (0 < tan a1) as Ht1 by (apply tan_gt_0; lra).
  assert (tan a1 <= tan a2) as Ht.
  { destruct Hle as [Hlt|Heq].
    - left. apply tan_increasing; lra.
    - rewrite Heq. lra. }
  apply CLAMP_real_monotone; [lra|].
  apply ratio_monotone. lra.
Qed.

(** *** The parameters of a frame *)

(** C8.  In every frame of a block each of cutoff, resonance and gain is
    the sample of its stream when the connection flag of that inlet is not
    zero and the held scalar otherwise, clamped to [20, 20000], [0, 4] and
    [0, 4]; the sample routine, and with it the coefficient computation,
    receives the clamped values.  A cutoff of 50000 becomes 20000 and a
    resonance of -1 becomes 0. *)
Theorem perform64_resolves_and_clamps
    (x : t_ssm2044 R) (ins : nat -> nat -> R) (n i : nat) :
  (i < n)%nat ->
  let xi := fst (ssm2044_perform64 x ins i) in
  let cutoff :=
    CLAMP (if truthy (cutoff_has_signal x) then ins 1%nat i else cutoff_float x) 20 20000 in
  let resonance :=
    CLAMP (if truthy (resonance_has_signal x) then ins 2%nat i else resonance_float x) 0 4 in
  let gain :=
    CLAMP (if truthy (gain_has_signal x) then ins 3%nat i else gain_float x) 0 4 in
  let p := ssm2044_process_sample xi (ins 0%nat i) cutoff resonance gain in
  fst (ssm2044_perform64 x ins (S i)) = fst p /\
  nth i (snd (ssm2044_perform64 x ins n)) 0 = denormal_fix (snd p) /\
  g (fst p) = g (compute_filter_coefficients xi cutoff resonance) /\
  k (fst p) = resonance * 4 /\
  20 <= cutoff <= 20000 /\ 0 <= resonance <= 4 /\ 0 <= gain <= 4 /\
  CLAMP 50000 20 20000 = 20000 /\ CLAMP (-1) 0 4 = 0.
Proof.
  intros Hi. cbv zeta.
  split; [rewrite perform64_next_frame; reflexivity|].
  split; [rewrite (perform64_nth x ins n i 0 Hi); reflexivity|].
  split; [reflexivity|]. split; [reflexivity|].
  split; [apply CLAMP_real_range; lra|].
  split; [apply CLAMP_real_range; lra|].
  split; [apply CLAMP_real_range; lra|].
  split.
  - destruct (CLAMP_real 50000 20 20000) as [[H _]|[[H _]|(_ & _ & ->)]]; lra.
  - destruct (CLAMP_real (-1) 0 4) as [[_ ->]|[[H _]|(H & _)]]; lra.
Qed.

Lemma perform64_resolves_and_clamps_witness :
  let x := ssm2044_dsp64 (ssm2044_new 48000) all_signals 48000 in
  nth 1 (snd (ssm2044_perform64 x clamp_scenario_ins 2)) 0 =
  denormal_fix
    (snd (ssm2044_process_sample (fst (ssm2044_perform64 x clamp_scenario_ins 1)) 1
            (CLAMP 50000 20 20000) (CLAMP (-1) 0 4) (CLAMP 1 0 4))).
Proof.
  cbv zeta.
  exact (proj1 (proj2 (perform64_resolves_and_clamps
                         (ssm2044_dsp64 (ssm2044_new 48000) all_signals 48000)
                         clamp_scenario_ins 2 1 ltac:(lia)))).
Defined.

(** *** The impulse response of the cascade *)

(** With resonance 0 the feedback gain is 0 and the stage input of the
    sample routine is the saturated, scaled input alone. *)
Lemma stage_input_without_resonance (x : t_ssm2044 R) (input cutoff gain : R) :
  let c := compute_filter_coefficients x cutoff 0 in
  k c = 0 /\ stage_input c input gain = soft_saturation (input * gain) INPUT_DRIVE.
Proof.
  cbv zeta. unfold stage_input.
  cbn [compute_filter_coefficients k set_g set_k feedback_sample].
  unfold RESONANCE_SCALE. real_ops_unfold. split; ring.
Qed.

Lemma denormal_fix_nonneg (v : R) : 0 <= v -> 0 <= denormal_fix v <= v.
Proof.
  intros Hv. destruct (denormal_fix_real v) as [[_ ->]|[_ ->]]; lra.
Qed.

Lemma stage_between (g_ s u : R) : 0 <= g_ <= 1 -> between s u (s + g_ * (u - s)).
Proof.
  intros Hg. unfold between, Rmin, Rmax.
  destruct (Rle_dec s u); split; nra.
Qed.

Lemma impulse_states_S (g_ : R) (n : nat) :
  impulse_states g_ (S n) =
  let '(o1, o2, o3, o4) := impulse_stages g_ n in
  (denormal_fix o1, denormal_fix o2, denormal_fix o3, denormal_fix o4).
Proof.
  cbn [impulse_states]. unfold cascade, impulse_stages.
  destruct (cascade_stages g_ (impulse_states g_ n) (unit_impulse n)) as [[[o1 o2] o3] o4].
  reflexivity.
Qed.

Lemma impulse_output_stage4 (g_ : R) (n : nat) :
  impulse_output g_ n = snd (impulse_stages g_ n).
Proof.
  unfold impulse_output, cascade, impulse_stages.
  destruct (cascade_stages g_ (impulse_states g_ n) (unit_impulse n)) as [[[o1 o2] o3] o4].
  reflexivity.
Qed.

Lemma stage_inv_first_sample (g_ : R) : 0 <= g_ <= 1 -> stage_inv g_ (impulse_stages g_ 0).
Proof.
  intros Hg. unfold impulse_stages. cbn [impulse_states unit_impulse cascade_stages stage_inv].
  real_ops_unfold.
  assert (0 <= g_ * g_ <= 1) by nra.
  assert (0 <= g_ * (g_ * g_) <= 1) by nra.
  assert (0 <= g_ * (g_ * (g_ * g_)) <= 1) by nra.
  replace (0 + g_ * (1 - 0)) with g_ by ring.
  replace (0 + g_ * (g_ - 0)) with (g_ * g_) by ring.
  replace (0 + g_ * (g_ * g_ - 0)) with (g_ * (g_ * g_)) by ring.
  replace (0 + g_ * (g_ * (g_ * g_) - 0)) with (g_ * (g_ * (g_ * g_))) by ring.
  repeat split; lra.
Qed.

(** The stage outputs of the next sample, once the impulse has passed, in
    terms of the flushed states. *)
Lemma stages_after_impulse (g_ o1 o2 o3 o4 s1 s2 s3 s4 : R) :
  0 <= g_ <= 1 ->
  stage_inv g_ (o1, o2, o3, o4) ->
  0 <= s1 <= o1 -> 0 <= s2 <= o2 -> 0 <= s3 <= o3 -> 0 <= s4 <= o4 ->
  stage_inv g_ (cascade_stages g_ (s1, s2, s3, s4) 0) /\
  (0.75 <= g_ -> snd (cascade_stages g_ (s1, s2, s3, s4) 0) <= o4).
Proof.
  intros Hg [(Ho1 & Ho2 & Ho3 & Ho4) (Ha1 & Ha2 & Ha3)] Hs1 Hs2 Hs3 Hs4.
  cbn [cascade_stages stage_inv snd]. real_ops_unfold.
  set (p1 := s1 + g_ * (0 - s1)).
  set (p2 := s2 + g_ * (p1 - s2)).
  set (p3 := s3 + g_ * (p2 - s3)).
  set (p4 := s4 + g_ * (p3 - s4)).
  assert (p1 = (1 - g_) * s1) as E1 by (unfold p1; ring).
  assert (p2 = (1 - g_) * s2 + g_ * p1) as E2 by (unfold p2; ring).
  assert (p3 = (1 - g_) * s3 + g_ * p2) as E3 by (unfold p3; ring).
  assert (p4 = (1 - g_) * s4 + g_ * p3) as E4 by (unfold p4; ring).
  clearbody p1 p2 p3 p4.
  assert (0 <= 1 - g_ <= 1) as Hh by lra.
  (* the products that occur, each bounded by monotonicity of [*] *)
  assert (0 <= (1 - g_) * s1 <= (1 - g_) * o1) as M1
    by (split; [apply Rmult_le_pos|apply Rmult_le_compat_l]; lra).
  assert (0 <= (1 - g_) * s2 <= (1 - g_) * o2) as M2
    by (split; [apply Rmult_le_pos|apply Rmult_le_compat_l]; lra).
  assert (0 <= (1 - g_) * s3 <= (1 - g_) * o3) as M3
    by (split; [apply Rmult_le_pos|apply Rmult_le_compat_l]; lra).
  assert (0 <= (1 - g_) * s4 <= (1 - g_) * o4) as M4
    by (split; [apply Rmult_le_pos|apply Rmult_le_compat_l]; lra).
  assert ((1 - g_) * o1 <= o1) as N1
    by (rewrite <- (Rmult_1_l o1) at 2; apply Rmult_le_compat_r; lra).
  assert ((1 - g_) * o2 <= o2 /\ (1 - g_) * o3 <= o3 /\ (1 - g_) * o4 <= o4) as (N2 & N3 & N4).
  { repeat split;
      match goal with
      | |- _ * ?o <= ?o => rewrite <- (Rmult_1_l o) at 2; apply Rmult_le_compat_r; lra
      end. }
  assert (0 <= p1 <= (1 - g_) * o1) as B1 by lra.
  assert (0 <= g_ * p1 <= g_ * ((1 - g_) * o1)) as D1
    by (split; [apply Rmult_le_pos|apply Rmult_le_compat_l]; lra).
  assert (g_ * ((1 - g_) * o1) = (1 - g_) * (g_ * o1)) as X1 by ring.
  assert ((1 - g_) * (g_ * o1) <= (1 - g_) * o2) as Y1 by (apply Rmult_le_compat_l; lra).
  assert (0 <= p2 <= 2 * ((1 - g_) * o2)) as B2 by lra.
  assert (0 <= g_ * p2 <= g_ * (2 * ((1 - g_) * o2))) as D2
    by (split; [apply Rmult_le_pos|apply Rmult_le_compat_l]; lra).
  assert (g_ * (2 * ((1 - g_) * o2)) = 2 * ((1 - g_) * (g_ * o2))) as X2 by ring.
  assert ((1 - g_) * (g_ * o2) <= (1 - g_) * o3) as Y2 by (apply Rmult_le_compat_l; lra).
  assert (0 <= p3 <= 3 * ((1 - g_) * o3)) as B3 by lra.
  assert (0 <= g_ * p3 <= g_ * (3 * ((1 - g_) * o3))) as D3
    by (split; [apply Rmult_le_pos|apply Rmult_le_compat_l]; lra).
  assert (g_ * (3 * ((1 - g_) * o3)) = 3 * ((1 - g_) * (g_ * o3))) as X3 by ring.
  assert ((1 - g_) * (g_ * o3) <= (1 - g_) * o4) as Y3 by (apply Rmult_le_compat_l; lra).
  (* convexity: each new output is at most the larger of state and input *)
  assert (p1 <= 1) as U1 by lra.
  assert (g_ * p1 <= g_ * 1) as V1 by (apply Rmult_le_compat_l; lra).
  assert ((1 - g_) * s2 <= (1 - g_) * 1) as W2 by (apply Rmult_le_compat_l; lra).
  assert (p2 <= 1) as U2 by lra.
  assert (g_ * p2 <= g_ * 1) as V2 by (apply Rmult_le_compat_l; lra).
  assert ((1 - g_) * s3 <= (1 - g_) * 1) as W3 by (apply Rmult_le_compat_l; lra).
  assert (p3 <= 1) as U3 by lra.
  assert (g_ * p3 <= g_ * 1) as V3 by (apply Rmult_le_compat_l; lra).
  assert ((1 - g_) * s4 <= (1 - g_) * 1) as W4 by (apply Rmult_le_compat_l; lra).
  assert (p4 <= 1) as U4 by lra.
  split.
  - repeat split; lra.
  - intros Hq.
    assert ((3 * (1 - g_)) * o4 <= g_ * o4) as Z by (apply Rmult_le_compat_r; lra).
    lra.
Qed.

Lemma stage_inv_impulse (g_ : R) (n : nat) :
  0 <= g_ <= 1 -> stage_inv g_ (impulse_stages g_ n).
Proof.
  intros Hg. induction n as [|n IH].
  - apply stage_inv_first_sample; exact Hg.
  - unfold impulse_stages at 1. rewrite impulse_states_S. cbn [unit_impulse].
    destruct (impulse_stages g_ n) as [[[o1 o2] o3] o4].
    pose proof IH as [(Ho1 & Ho2 & Ho3 & Ho4) _].
    apply (stages_after_impulse g_ o1 o2 o3 o4); auto;
      apply denormal_fix_nonneg; lra.
Qed.

Lemma impulse_output_decreases (g_ : R) (n : nat) :
  0.75 <= g_ <= 1 -> impulse_output g_ (S n) <= impulse_output g_ n.
Proof.
  intros Hg. rewrite !impulse_output_stage4.
  assert (0 <= g_ <= 1) as Hg1 by lra.
  pose proof (stage_inv_impulse g_ n Hg1) as IH.
  unfold impulse_stages at 1. rewrite impulse_states_S. cbn [unit_impulse].
  destruct (impulse_stages g_ n) as [[[o1 o2] o3] o4].
  pose proof IH as [(Ho1 & Ho2 & Ho3 & Ho4) _].
  cbn [snd].
  apply (stages_after_impulse g_ o1 o2 o3 o4); auto; try (apply denormal_fix_nonneg; lra).
  lra.
Qed.

(** C9, as amended.  For every g in [0, 0.99]: each stage of the cascade
    is non-expansive (its output lies between its own state and its input),
    the output of the zero-initialised cascade fed a unit impulse stays in
    [0, 1] at every sample, and for g >= 0.75 that output sequence never
    increases.  For smaller g the fourth-stage output first rises. *)
Theorem impulse_response_bounded (g_ : R) :
  0 <= g_ <= 0.99 ->
  (forall s1 s2 s3 s4 u,
      let '(o1, o2, o3, o4) := cascade_stages g_ (s1, s2, s3, s4) u in
      between s1 u o1 /\ between s2 o1 o2 /\ between s3 o2 o3 /\ between s4 o3 o4) /\
  (forall n, 0 <= impulse_output g_ n <= 1) /\
  (0.75 <= g_ -> forall n, impulse_output g_ (S n) <= impulse_output g_ n).
Proof.
  intros Hg. assert (0 <= g_ <= 1) as Hg1 by lra.
  split; [|split].
  - intros. cbn [cascade_stages]. repeat split; apply stage_between; exact Hg1.
  - intros n. rewrite impulse_output_stage4.
    pose proof (stage_inv_impulse g_ n Hg1) as IH.
    destruct (impulse_stages g_ n) as [[[o1 o2] o3] o4].
    destruct IH as [(_ & _ & _ & Ho4) _]. exact Ho4.
  - intros Hq n. apply impulse_output_decreases. lra.
Qed.

Lemma impulse_response_bounded_witness :
  impulse_output 0.8 3 <= impulse_output 0.8 2.
Proof.
  apply (proj2 (proj2 (impulse_response_bounded 0.8 ltac:(lra)))). lra.
Defined.

Lemma denormal_fix_keeps (v : R) : 1e-15 <= v -> denormal_fix v = v.
Proof.
  intros Hv. destruct (denormal_fix_real v) as [[H _]|[_ ->]]; [|reflexivity].
  rewrite Rabs_pos_eq in H; lra.
Qed.

(** C9 as stated fails below g = 0.75: at g = 0.5 the output is 1/16 at
    sample 0 and 1/8 at sample 1. *)
Lemma impulse_output_rises_at_half :
  0 <= 0.5 <= 0.99 /\
  impulse_output 0.5 0 = 0.0625 /\ impulse_output 0.5 1 = 0.125 /\
  impulse_output 0.5 0 < impulse_output 0.5 1.
Proof.
  assert (impulse_stages 0.5 0 = (0.5, 0.25, 0.125, 0.0625)) as E0.
  { unfold impulse_stages. cbn [impulse_states unit_impulse cascade_stages].
    real_ops_unfold. repeat f_equal; lra. }
  assert (impulse_output 0.5 0 = 0.0625) as H0.
  { rewrite impulse_output_stage4, E0. reflexivity. }
  assert (impulse_output 0.5 1 = 0.125) as H1.
  { rewrite impulse_output_stage4. unfold impulse_stages.
    rewrite impulse_states_S, E0. cbn [unit_impulse].
    rewrite !denormal_fix_keeps by lra.
    cbn [cascade_stages snd]. real_ops_unfold. lra. }
  rewrite H0, H1. repeat split; lra.
Qed.

End RealModel.

(** ** More on the real-number reading: bounds, rest, symmetry *)

Section RealBehaviour.

Local Open Scope R_scope.

Ltac real_ops_unfold :=
  cbn [d_add d_sub d_mul d_div d_lt d_le d_fabs d_tan d_tanh
       lit_0 lit_1 lit_2 lit_4 lit_0_5 lit_0_45 lit_0_99 lit_1_5
       lit_20 lit_1000 lit_20000 lit_PI lit_1e_15 real_ops] in *.

Lemma tanh_bounds (x : R) : -1 < tanh x < 1.
Proof.
  unfold tanh, sinh, cosh.
  pose proof (exp_pos x) as Ha. pose proof (exp_pos (- x)) as Hb.
  set (a := exp x) in *. set (b := exp (- x)) in *.
  assert (0 < (a + b) / 2) as Hc by lra.
  split; apply (Rmult_lt_reg_r ((a + b) / 2)); try exact Hc;
    replace ((a - b) / 2 / ((a + b) / 2) * ((a + b) / 2)) with ((a - b) / 2)
      by (field; lra); lra.
Qed.

Lemma tanh_odd (x : R) : tanh (- x) = - tanh x.
Proof.
  unfold tanh, sinh, cosh. rewrite Ropp_involutive.
  pose proof (exp_pos x). pose proof (exp_pos (- x)). field. lra.
Qed.

(** The saturator never returns more than the reciprocal of its drive. *)
Lemma soft_saturation_bounds (x d : R) :
  0 < d -> - (1 / d) < soft_saturation x d < 1 / d.
Proof.
  intros Hd. destruct (soft_saturation_real x d) as [[H _]|[_ ->]]; [lra|].
  pose proof (tanh_bounds (x * d)) as [Hl Hu].
  assert (0 < / d) as Hi by (apply Rinv_0_lt_compat; exact Hd).
  unfold Rdiv. rewrite Rmult_1_l.
  split.
  - replace (- / d) with (-1 * / d) by ring. apply Rmult_lt_compat_r; assumption.
  - rewrite <- (Rmult_1_l (/ d)) at 2. apply Rmult_lt_compat_r; assumption.
Qed.

Lemma stage_input_bounds (x : t_ssm2044 R) (input gain : R) :
  0 <= k x <= 16 -> - (26 / 3) < stage_input x input gain < 26 / 3.
Proof.
  intros [Hk0 Hk1]. unfold stage_input, INPUT_DRIVE, FEEDBACK_DRIVE. real_ops_unfold.
  pose proof (soft_saturation_bounds (input * gain) 1.5 ltac:(lra)) as [Hi0 Hi1].
  pose proof (soft_saturation_bounds (feedback_sample x) 2 ltac:(lra)) as [Hf0 Hf1].
  set (si := soft_saturation (input * gain) 1.5) in *.
  set (sf := soft_saturation (feedback_sample x) 2) in *.
  assert (k x * sf <= k x * (1 / 2)) as U by (apply Rmult_le_compat_l; lra).
  assert (k x * (- (1 / 2)) <= k x * sf) as L by (apply Rmult_le_compat_l; lra).
  lra.
Qed.

Lemma stage_within (b g_ s u : R) :
  0 <= g_ <= 1 -> - b <= s <= b -> - b <= u <= b -> - b <= s + g_ * (u - s) <= b.
Proof.
  intros Hg Hs Hu. pose proof (stage_between g_ s u Hg) as [Hl Hh].
  unfold Rmin, Rmax in *. destruct (Rle_dec s u); lra.
Qed.

Lemma denormal_fix_within (b v : R) : 0 <= b -> - b <= v <= b -> - b <= denormal_fix v <= b.
Proof.
  intros Hb Hv. destruct (denormal_fix_real v) as [[_ ->]|[_ ->]]; lra.
Qed.

Lemma process_sample_within (b : R) (x : t_ssm2044 R) (input cutoff resonance gain : R) :
  26 / 3 <= b -> 0 <= resonance <= 4 -> poles_within b x ->
  let p := ssm2044_process_sample x input cutoff resonance gain in
  poles_within b (fst p) /\ - b <= snd p <= b.
Proof.
  intros Hb Hr (H1 & H2 & H3 & H4). cbv zeta.
  set (c := compute_filter_coefficients x cutoff resonance).
  assert (0 <= g c <= 1) as Hg by (pose proof (g_range x cutoff resonance); fold c in H; lra).
  assert (0 <= k c <= 16) as Hk.
  { unfold c. cbn [compute_filter_coefficients k set_g set_k]. unfold RESONANCE_SCALE.
    real_ops_unfold. lra. }
  pose proof (stage_input_bounds c input gain Hk) as Hu.
  assert (- b <= stage_input c input gain <= b) as Hu' by lra.
  destruct (process_sample_states_fixed x input cutoff resonance gain)
    as (o1 & o2 & o3 & o4 & _).
  clear o1 o2 o3 o4.
  change (ssm2044_process_sample x input cutoff resonance gain)
    with (let u := stage_input c input gain in
          let o1 := state1 x + g c * (u - state1 x) in
          let o2 := state2 x + g c * (o1 - state2 x) in
          let o3 := state3 x + g c * (o2 - state3 x) in
          let o4 := state4 x + g c * (o3 - state4 x) in
          (set_feedback_sample
             (set_state4 (set_state3 (set_state2 (set_state1 c (denormal_fix o1))
                (denormal_fix o2)) (denormal_fix o3)) (denormal_fix o4)) o4, o4)).
  cbv zeta. unfold poles_within.
  cbn [fst snd state1 state2 state3 state4 set_state1 set_state2 set_state3 set_state4
       set_feedback_sample].
  set (u := stage_input c input gain) in *.
  pose proof (stage_within b (g c) (state1 x) u Hg H1 Hu') as B1.
  set (o1 := state1 x + g c * (u - state1 x)) in *.
  pose proof (stage_within b (g c) (state2 x) o1 Hg H2 B1) as B2.
  set (o2 := state2 x + g c * (o1 - state2 x)) in *.
  pose proof (stage_within b (g c) (state3 x) o2 Hg H3 B2) as B3.
  set (o3 := state3 x + g c * (o2 - state3 x)) in *.
  pose proof (stage_within b (g c) (state4 x) o3 Hg H4 B3) as B4.
  set (o4 := state4 x + g c * (o3 - state4 x)) in *.
  assert (0 <= b) as Hb0 by lra.
  repeat split; try (apply denormal_fix_within; assumption); lra.
Qed.

Lemma perform_loop_within (b : R) (n : nat) :
  26 / 3 <= b ->
  forall (x : t_ssm2044 R) (ab cb rb gb : nat -> R) (pa pc pr pg : nat),
    poles_within b x ->
    let r := perform_loop n x ab cb rb gb pa pc pr pg in
    poles_within b (fst r) /\ Forall (fun y => - b <= y <= b) (snd r).
Proof.
  intros Hb. induction n as [|n IH]; intros x ab cb rb gb pa pc pr pg Hx; cbv zeta.
  - cbn [perform_loop fst snd]. split; [exact Hx|constructor].
  - rewrite perform_loop_S. cbv zeta. cbn [fst snd].
    match goal with
    | |- context [ssm2044_process_sample x ?a ?c ?r ?gn] =>
        destruct (process_sample_within b x a c r gn Hb) as [Hp Hy];
        [unfold MAX_RESONANCE; real_ops_unfold; apply CLAMP_real_range; lra|exact Hx|];
        set (p := ssm2044_process_sample x a c r gn) in *
    end.
    cbv zeta in Hp, Hy.
    match goal with
    | |- context [perform_loop n (fst p) ?a1 ?a2 ?a3 ?a4 ?q1 ?q2 ?q3 ?q4] =>
        destruct (IH (fst p) a1 a2 a3 a4 q1 q2 q3 q4 Hp) as [Hs Ho]
    end.
    cbv zeta in Hs, Ho.
    split; [exact Hs|]. constructor; [|exact Ho].
    apply denormal_fix_within; lra.
Qed.

(** X5.  Bounded output for every input: if the four pole states start
    within [-b, b] for some b >= 26/3 (as they do in a new object), then
    after a block of any length, with any audio and any parameter streams
    or held values, they are still within [-b, b], and so is every sample
    written. *)
Theorem perform64_bounded (b : R) (x : t_ssm2044 R) (ins : nat -> nat -> R) (n : nat) :
  26 / 3 <= b -> poles_within b x ->
  poles_within b (fst (ssm2044_perform64 x ins n)) /\
  Forall (fun y => - b <= y <= b) (snd (ssm2044_perform64 x ins n)).
Proof.
  intros Hb Hx. apply (perform_loop_within b n Hb x _ _ _ _ 0%nat 0%nat 0%nat 0%nat Hx).
Qed.

Lemma perform64_bounded_witness :
  Forall (fun y => - (26 / 3) <= y <= 26 / 3)
    (snd (ssm2044_perform64 (ssm2044_dsp64 (ssm2044_new 48000) all_signals 48000)
            clamp_scenario_ins 3)).
Proof.
  apply (perform64_bounded (26 / 3)
           (ssm2044_dsp64 (ssm2044_new 48000) all_signals 48000) clamp_scenario_ins 3).
  - lra.
  - unfold poles_within. cbn. lra.
Defined.

(** *** Rest *)

Lemma process_sample_at_rest (x : t_ssm2044 R) (cutoff resonance gain : R) :
  at_rest x ->
  let p := ssm2044_process_sample x 0 cutoff resonance gain in
  at_rest (fst p) /\ snd p = 0.
Proof.
  intros (H1 & H2 & H3 & H4 & H5). cbv zeta.
  set (c := compute_filter_coefficients x cutoff resonance).
  assert (stage_input c 0 gain = 0) as Hu.
  { unfold stage_input, INPUT_DRIVE, FEEDBACK_DRIVE.
    change (feedback_sample c) with (feedback_sample x). rewrite H5. real_ops_unfold.
    destruct (soft_saturation_real (0 * gain) 1.5) as [[H _]|[_ ->]]; [lra|].
    destruct (soft_saturation_real 0 2) as [[H _]|[_ ->]]; [lra|].
    replace (0 * gain * 1.5) with 0 by ring. replace (0 * 2) with 0 by ring.
    rewrite tanh_0. lra. }
  assert (denormal_fix 0 = 0) as Hz.
  { destruct (denormal_fix_real 0) as [[_ ->]|[_ ->]]; reflexivity. }
  change (ssm2044_process_sample x 0 cutoff resonance gain)
    with (let u := stage_input c 0 gain in
          let o1 := state1 x + g c * (u - state1 x) in
          let o2 := state2 x + g c * (o1 - state2 x) in
          let o3 := state3 x + g c * (o2 - state3 x) in
          let o4 := state4 x + g c * (o3 - state4 x) in
          (set_feedback_sample
             (set_state4 (set_state3 (set_state2 (set_state1 c (denormal_fix o1))
                (denormal_fix o2)) (denormal_fix o3)) (denormal_fix o4)) o4, o4)).
  cbv zeta. rewrite Hu, H1, H2, H3, H4. unfold at_rest.
  cbn [fst snd state1 state2 state3 state4 feedback_sample
       set_state1 set_state2 set_state3 set_state4 set_feedback_sample].
  do 4 (replace (0 + g c * (0 - 0)) with 0 by ring).
  rewrite Hz. repeat split; reflexivity.
Qed.

Lemma perform_loop_at_rest (n : nat) :
  forall (x : t_ssm2044 R) (ab cb rb gb : nat -> R) (pa pc pr pg : nat),
    at_rest x -> (forall i, (i < n)%nat -> ab (pa + i)%nat = 0) ->
    let r := perform_loop n x ab cb rb gb pa pc pr pg in
    at_rest (fst r) /\ Forall (fun y => y = 0) (snd r).
Proof.
  induction n as [|n IH]; intros x ab cb rb gb pa pc pr pg Hx Ha; cbv zeta.
  - cbn [perform_loop fst snd]. split; [exact Hx|constructor].
  - rewrite perform_loop_S. cbv zeta. cbn [fst snd].
    assert (ab pa = 0) as E0.
    { specialize (Ha 0%nat ltac:(lia)). now rewrite Nat.add_0_r in Ha. }
    rewrite E0.
    match goal with
    | |- context [ssm2044_process_sample x 0 ?c ?r ?gn] =>
        destruct (process_sample_at_rest x c r gn Hx) as [Hp Hy];
        set (p := ssm2044_process_sample x 0 c r gn) in *
    end.
    cbv zeta in Hp, Hy.
    match goal with
    | |- context [perform_loop n (fst p) ?a1 ?a2 ?a3 ?a4 ?q1 ?q2 ?q3 ?q4] =>
        destruct (IH (fst p) a1 a2 a3 a4 q1 q2 q3 q4 Hp) as [Hs Ho]
    end.
    { intros i Hi. specialize (Ha (S i) ltac:(lia)). now rewrite Nat.add_succ_r in Ha. }
    cbv zeta in Hs, Ho.
    split; [exact Hs|]. constructor; [|exact Ho].
    rewrite Hy. destruct (denormal_fix_real 0) as [[_ ->]|[_ ->]]; reflexivity.
Qed.

(** X6.  Silence stays silence: an object whose pole states and feedback
    memory are 0, fed a block of zero audio, writes only zeros and is left
    with pole states and feedback memory 0, at every cutoff, gain and
    resonance, the highest included. *)
Theorem perform64_silence (x : t_ssm2044 R) (ins : nat -> nat -> R) (n : nat) :
  at_rest x -> (forall i, (i < n)%nat -> ins 0%nat i = 0) ->
  at_rest (fst (ssm2044_perform64 x ins n)) /\
  Forall (fun y => y = 0) (snd (ssm2044_perform64 x ins n)).
Proof.
  intros Hx Ha.
  apply (perform_loop_at_rest n x _ _ _ _ 0%nat 0%nat 0%nat 0%nat Hx).
  intros i Hi. cbn [Nat.add]. apply Ha; exact Hi.
Qed.

Lemma perform64_silence_witness :
  Forall (fun y => y = 0) (snd (ssm2044_perform64 (ssm2044_new 48000) (fun _ _ => 0) 4)).
Proof.
  apply (perform64_silence (ssm2044_new 48000) (fun _ _ => 0) 4).
  - unfold at_rest. cbn. repeat split; reflexivity.
  - intros i _. reflexivity.
Defined.

(** *** Symmetry *)

Lemma soft_saturation_odd (v d : R) : soft_saturation (- v) d = - soft_saturation v d.
Proof.
  destruct (soft_saturation_real v d) as [[Hd ->]|[Hd ->]];
    destruct (soft_saturation_real (- v) d) as [[Hd' ->]|[Hd' ->]]; try lra.
  replace (- v * d) with (- (v * d)) by ring. rewrite tanh_odd.
  unfold Rdiv. ring.
Qed.

Lemma denormal_fix_odd (v : R) : denormal_fix (- v) = - denormal_fix v.
Proof.
  destruct (denormal_fix_real v) as [[H ->]|[H ->]];
    destruct (denormal_fix_real (- v)) as [[H' ->]|[H' ->]];
    rewrite ?Rabs_Ropp in H'; lra.
Qed.

Lemma process_sample_unfolded (x : t_ssm2044 R) (input cutoff resonance gain : R) :
  ssm2044_process_sample x input cutoff resonance gain =
  let c := compute_filter_coefficients x cutoff resonance in
  let u := stage_input c input gain in
  let o1 := state1 x + g c * (u - state1 x) in
  let o2 := state2 x + g c * (o1 - state2 x) in
  let o3 := state3 x + g c * (o2 - state3 x) in
  let o4 := state4 x + g c * (o3 - state4 x) in
  (set_feedback_sample
     (set_state4 (set_state3 (set_state2 (set_state1 c (denormal_fix o1))
        (denormal_fix o2)) (denormal_fix o3)) (denormal_fix o4)) o4, o4).
Proof. reflexivity. Qed.

Lemma stage_odd (g_ s u : R) : - s + g_ * (- u - - s) = - (s + g_ * (u - s)).
Proof. ring. Qed.

Lemma process_sample_odd (x : t_ssm2044 R) (input cutoff resonance gain : R) :
  ssm2044_process_sample (negated x) (- input) cutoff resonance gain =
  let p := ssm2044_process_sample x input cutoff resonance gain in
  (negated (fst p), - snd p).
Proof.
  rewrite !process_sample_unfolded. cbv zeta.
  set (c := compute_filter_coefficients x cutoff resonance).
  change (compute_filter_coefficients (negated x) cutoff resonance) with (negated c).
  assert (stage_input (negated c) (- input) gain = - stage_input c input gain) as Hu.
  { unfold stage_input. cbn [negated k feedback_sample]. real_ops_unfold.
    replace (- input * gain) with (- (input * gain)) by ring.
    rewrite !soft_saturation_odd. ring. }
  rewrite Hu.
  change (g (negated c)) with (g c).
  change (state1 (negated x)) with (- state1 x).
  change (state2 (negated x)) with (- state2 x).
  change (state3 (negated x)) with (- state3 x).
  change (state4 (negated x)) with (- state4 x).
  real_ops_unfold.
  rewrite (stage_odd (g c) (state1 x)). set (o1 := state1 x + g c * (_ - state1 x)).
  rewrite (stage_odd (g c) (state2 x)). set (o2 := state2 x + g c * (o1 - state2 x)).
  rewrite (stage_odd (g c) (state3 x)). set (o3 := state3 x + g c * (o2 - state3 x)).
  rewrite (stage_odd (g c) (state4 x)). set (o4 := state4 x + g c * (o3 - state4 x)).
  rewrite !denormal_fix_odd. reflexivity.
Qed.

Lemma perform_loop_odd (n : nat) :
  forall (x : t_ssm2044 R) (ab cb rb gb : nat -> R) (pa pc pr pg : nat),
    perform_loop n (negated x) (fun i => - ab i) cb rb gb pa pc pr pg =
    let r := perform_loop n x ab cb rb gb pa pc pr pg in
    (negated (fst r), map Ropp (snd r)).
Proof.
  induction n as [|n IH]; intros x ab cb rb gb pa pc pr pg; cbv zeta.
  - reflexivity.
  - rewrite !perform_loop_S. cbv zeta. cbn [fst snd map].
    change (cutoff_has_signal (negated x)) with (cutoff_has_signal x).
    change (resonance_has_signal (negated x)) with (resonance_has_signal x).
    change (gain_has_signal (negated x)) with (gain_has_signal x).
    change (cutoff_float (negated x)) with (cutoff_float x).
    change (resonance_float (negated x)) with (resonance_float x).
    change (gain_float (negated x)) with (gain_float x).
    rewrite process_sample_odd. cbv zeta. cbn [fst snd].
    rewrite IH. cbv zeta. cbn [fst snd].
    rewrite denormal_fix_odd. reflexivity.
Qed.

(** X7.  The filter is odd: inverting the sign of the audio input, of the
    pole states and of the feedback memory inverts the sign of every sample
    written and of the state left behind, and changes nothing else. *)
Theorem perform64_odd_symmetry (x : t_ssm2044 R) (ins : nat -> nat -> R) (n : nat) :
  ssm2044_perform64 (negated x) (inverted_audio ins) n =
  (negated (fst (ssm2044_perform64 x ins n)), map Ropp (snd (ssm2044_perform64 x ins n))).
Proof.
  unfold ssm2044_perform64.
  apply (perform_loop_odd n x (ins 0%nat) (ins 1%nat) (ins 2%nat) (ins 3%nat)).
Qed.

(** *** The held scalars *)

Lemma CLAMP_real_id (a lo hi : R) : lo <= a <= hi -> CLAMP a lo hi = a.
Proof.
  intros Ha. destruct (CLAMP_real a lo hi) as [[H ->]|[[H ->]|(H1 & H2 & ->)]]; lra.
Qed.

Lemma ssm2044_float_in_range (x : t_ssm2044 R) (inlet : Z) (f : R) :
  held_in_range x -> held_in_range (ssm2044_float x inlet f).
Proof.
  intros (Hc & Hr & Hg). unfold held_in_range, ssm2044_float, MAX_RESONANCE.
  destruct inlet as [|[p|p|]|p]; try destruct p;
    cbn [set_cutoff_float set_resonance_float set_gain_float
         cutoff_float resonance_float gain_float];
    real_ops_unfold; repeat split; try lra;
    try (apply (CLAMP_real_range f 20 20000); lra);
    try (apply (CLAMP_real_range f 0 4); lra).
Qed.

(** X8.  The held scalars never leave their ranges: if the held cutoff is
    in [20, 20000] and the held resonance and gain are in [0, 4], they
    still are after a float or an int message to any inlet, after
    [ssm2044_dsp64] and after a block of any length. *)
Theorem held_scalars_stay_in_range (x : t_ssm2044 R) (inlet : Z) (f : R) (v : Z)
    (count : nat -> Z) (samplerate : R) (ins : nat -> nat -> R) (n : nat) :
  held_in_range x ->
  held_in_range (ssm2044_float x inlet f) /\
  held_in_range (ssm2044_int IZR x inlet v) /\
  held_in_range (ssm2044_dsp64 x count samplerate) /\
  held_in_range (fst (ssm2044_perform64 x ins n)).
Proof.
  intros Hx. split; [apply ssm2044_float_in_range; exact Hx|].
  split; [exact (ssm2044_float_in_range x inlet (IZR v) Hx)|].
  split; [exact Hx|].
  destruct (perform_loop_config n x (ins 0%nat) (ins 1%nat) (ins 2%nat) (ins 3%nat) 0 0 0 0)
    as (Hc & Hr & Hg & _).
  unfold held_in_range, ssm2044_perform64. rewrite Hc, Hr, Hg. exact Hx.
Qed.

Lemma held_scalars_stay_in_range_witness :
  held_in_range (ssm2044_float (ssm2044_new 48000) 1 50000).
Proof.
  apply (held_scalars_stay_in_range (ssm2044_new 48000) 1 50000 0 no_signals 48000
           clamp_scenario_ins 0).
  unfold held_in_range. cbn. lra.
Defined.

(** X9.  With no signal connected to the three parameter inlets and the
    held scalars in their ranges, the clamps of the block routine change
    nothing: every frame is processed with exactly the held cutoff,
    resonance and gain. *)
Theorem perform64_uses_held_scalars (x : t_ssm2044 R) (ins : nat -> nat -> R) (i : nat) :
  held_in_range x ->
  truthy (cutoff_has_signal x) = false ->
  truthy (resonance_has_signal x) = false ->
  truthy (gain_has_signal x) = false ->
  let p := ssm2044_process_sample (fst (ssm2044_perform64 x ins i)) (ins 0%nat i)
             (cutoff_float x) (resonance_float x) (gain_float x) in
  ssm2044_perform64 x ins (S i) =
  (fst p, snd (ssm2044_perform64 x ins i) ++ [denormal_fix (snd p)]).
Proof.
  intros (Hc & Hr & Hg) Tc Tr Tg. cbv zeta.
  rewrite perform64_next_frame. cbv zeta. unfold resolve, MAX_RESONANCE.
  rewrite Tc, Tr, Tg. real_ops_unfold.
  rewrite (CLAMP_real_id (cutoff_float x) 20 20000) by lra.
  rewrite (CLAMP_real_id (resonance_float x) 0 4) by lra.
  rewrite (CLAMP_real_id (gain_float x) 0 4) by lra.
  reflexivity.
Qed.

Lemma perform64_uses_held_scalars_witness :
  let x := ssm2044_new 48000 in
  let p := ssm2044_process_sample (fst (ssm2044_perform64 x clamp_scenario_ins 0))
             (clamp_scenario_ins 0%nat 0%nat)
             (cutoff_float x) (resonance_float x) (gain_float x) in
  ssm2044_perform64 x clamp_scenario_ins 1 =
  (fst p, snd (ssm2044_perform64 x clamp_scenario_ins 0) ++ [denormal_fix (snd p)]).
Proof.
  cbv zeta.
  apply (perform64_uses_held_scalars (ssm2044_new 48000) clamp_scenario_ins 0).
  - unfold held_in_range. cbn. lra.
  - reflexivity.
  - reflexivity.
  - reflexivity.
Defined.

Lemma CLAMP_IZR (n lo hi : Z) :
  (lo <= hi)%Z -> CLAMP (IZR n) (IZR lo) (IZR hi) = IZR (Z.max lo (Z.min n hi)).
Proof.
  intros Hb.
  destruct (CLAMP_real (IZR n) (IZR lo) (IZR hi)) as [[H ->]|[[[H1 H2] ->]|(H1 & H2 & ->)]].
  - apply le_IZR in H. f_equal. lia.
  - apply lt_IZR in H1, H2. f_equal. lia.
  - apply lt_IZR in H1. apply le_IZR in H2. f_equal. lia.
Qed.

(** X10.  An int message stores the integer itself, clamped as an integer:
    to 20..20000 on the cutoff inlet and to 0..4 on the resonance and gain
    inlets, so an int can only set the resonance and the gain to 0, 1, 2, 3
    or 4. *)
Theorem ssm2044_int_stores_clamped_integer (x : t_ssm2044 R) (n : Z) :
  cutoff_float (ssm2044_int IZR x 1 n) = IZR (Z.max 20 (Z.min n 20000)) /\
  resonance_float (ssm2044_int IZR x 2 n) = IZR (Z.max 0 (Z.min n 4)) /\
  gain_float (ssm2044_int IZR x 3 n) = IZR (Z.max 0 (Z.min n 4)).
Proof.
  unfold ssm2044_int, MAX_RESONANCE.
  cbn [set_cutoff_float set_resonance_float set_gain_float
       cutoff_float resonance_float gain_float].
  real_ops_unfold.
  repeat split.
  - apply (CLAMP_IZR n 20 20000). lia.
  - apply (CLAMP_IZR n 0 4). lia.
  - apply (CLAMP_IZR n 0 4). lia.
Qed.

(** *** The shape of the integrator gain *)

(** X11.  Outside the clamp of line 295 the cutoff has no influence: every
    cutoff at or below 20 Hz gives the gain of 20 Hz, and, when
    20 <= 0.45 * sr, every cutoff at or above 0.45 * sr gives the gain of
    0.45 * sr. *)
Theorem integrator_gain_saturates (x : t_ssm2044 R) (c r r' : R) :
  (c <= 20 ->
   g (compute_filter_coefficients x c r) = g (compute_filter_coefficients x 20 r')) /\
  (20 <= sr x * 0.45 -> sr x * 0.45 <= c ->
   g (compute_filter_coefficients x c r) =
   g (compute_filter_coefficients x (sr x * 0.45) r')).
Proof.
  split.
  - intros Hc. cbn [compute_filter_coefficients g set_g set_k]. real_ops_unfold.
    assert (CLAMP c 20 (sr x * 0.45) = CLAMP 20 20 (sr x * 0.45)) as ->; [|reflexivity].
    destruct (CLAMP_real c 20 (sr x * 0.45)) as [[H ->]|[[H _]|(H & _)]]; try lra.
    destruct (CLAMP_real 20 20 (sr x * 0.45)) as [[H' ->]|[[H' _]|(H' & _)]]; lra.
  - intros Hr Hc. cbn [compute_filter_coefficients g set_g set_k]. real_ops_unfold.
    assert (CLAMP c 20 (sr x * 0.45) = CLAMP (sr x * 0.45) 20 (sr x * 0.45)) as ->;
      [|reflexivity].
    destruct (CLAMP_real c 20 (sr x * 0.45)) as [[H ->]|[[H E]|(H1 & H2 & ->)]];
      destruct (CLAMP_real (sr x * 0.45) 20 (sr x * 0.45))
        as [[H' ->]|[[H' E']|(H1' & H2' & ->)]]; lra.
Qed.

Lemma integrator_gain_saturates_witness :
  g (compute_filter_coefficients (ssm2044_new 44100) 20000 0.5) =
  g (compute_filter_coefficients (ssm2044_new 44100) (sr (ssm2044_new 44100) * 0.45) 0.5).
Proof.
  apply (proj2 (integrator_gain_saturates (ssm2044_new 44100) 20000 0.5 0.5)).
  - cbn. lra.
  - cbn. lra.
Defined.

Lemma warped_top_bounds : 0 < tan (3.14159265358979323846 * 0.45) < 7.2.
Proof.
  set (A := 3.14159265358979323846 * 0.45).
  pose proof PI2_3_2. pose proof PI_4.
  assert (0.14 < cos_lb A) as Hlb.
  { unfold A, cos_lb, cos_approx, cos_term. cbn. lra. }
  assert (0.14 < cos A).
  { eapply Rlt_le_trans; [apply Hlb|]. apply COS; unfold A; lra. }
  pose proof (SIN_bound A) as [_ Hs].
  split; [apply tan_gt_0; unfold A; lra|].
  unfold tan. apply (Rmult_lt_reg_r (cos A)); [lra|].
  replace (sin A / cos A * cos A) with (sin A) by (field; lra). lra.
Qed.

Lemma warp_angle_upper (rate c : R) :
  0 < rate -> 20 <= c <= rate * 0.45 ->
  2 * 3.14159265358979323846 * c * (1 / rate) * 0.5 <= 3.14159265358979323846 * 0.45.
Proof.
  intros Hr [Hc1 Hc2].
  assert (0 < 1 / rate) as Hu by (apply Rdiv_lt_0_compat; lra).
  assert (rate * (1 / rate) = 1) as Hru by (field; lra).
  generalize dependent (1 / rate). intros u Hu Hru.
  assert (c * u <= rate * 0.45 * u) as Hw by (apply Rmult_le_compat_r; lra).
  replace (rate * 0.45 * u) with (0.45 * (rate * u)) in Hw by ring.
  rewrite Hru in Hw.
  replace (2 * 3.14159265358979323846 * c * u * 0.5)
    with (3.14159265358979323846 * (c * u)) by lra.
  apply Rmult_le_compat_l; lra.
Qed.

(** X12.  At every sample rate with 20 <= 0.45 * rate the integrator gain
    is strictly positive and stays below 0.88, whatever the cutoff: the
    clamp to [0, 0.99] of line 309 is never what limits it, and g is the
    quotient tan(a) / (1 + tan(a)) of the pre-warped frequency itself. *)
Theorem integrator_gain_strictly_inside
    (x : t_ssm2044 R) (count : nat -> Z) (samplerate cutoff resonance : R) :
  20 <= samplerate * 0.45 ->
  let x' := compute_filter_coefficients (ssm2044_dsp64 x count samplerate) cutoff resonance in
  let t := tan (2 * 3.14159265358979323846 * CLAMP cutoff 20 (samplerate * 0.45)
                * (1 / samplerate) * 0.5) in
  0 < g x' < 0.88 /\ g x' = t / (1 + t).
Proof.
  intros Hrate. cbv zeta.
  cbn [compute_filter_coefficients g set_g set_k ssm2044_dsp64 sr sr_inv
       set_sr set_sr_inv set_cutoff_has_signal set_resonance_has_signal set_gain_has_signal].
  unfold PI. real_ops_unfold.
  assert (0 < samplerate) as Hpos by lra.
  pose proof (CLAMP_real_range cutoff 20 (samplerate * 0.45) Hrate) as Hk.
  set (c := CLAMP cutoff 20 (samplerate * 0.45)) in *.
  pose proof (warp_angle_range samplerate c Hpos Hk) as Ha.
  pose proof (warp_angle_upper samplerate c Hpos Hk) as Hu.
  pose proof warped_top_bounds as [_ Htop].
  pose proof PI2_3_2 as Hpi.
  set (a := 2 * 3.14159265358979323846 * c * (1 / samplerate) * 0.5) in *.
  assert (0 < tan a) as Ht0 by (apply tan_gt_0; lra).
  assert (tan a < 7.2) as Ht1.
  { destruct Hu as [Hlt|Heq].
    - apply Rlt_trans with (tan (3.14159265358979323846 * 0.45)); [|exact Htop].
      apply tan_increasing; lra.
    - rewrite Heq. exact Htop. }
  set (t := tan a) in *.
  assert (0 < t / (1 + t) < 0.88) as Hq.
  { split; [apply Rdiv_lt_0_compat; lra|].
    apply (Rmult_lt_reg_r (1 + t)); [lra|].
    replace (t / (1 + t) * (1 + t)) with t by (field; lra). lra. }
  rewrite (CLAMP_real_id (t / (1 + t)) 0 0.99) by lra.
  split; [exact Hq|reflexivity].
Qed.

Lemma integrator_gain_strictly_inside_witness :
  0 < g (compute_filter_coefficients (ssm2044_dsp64 (ssm2044_new 44100) no_signals 48000)
           20000 4) < 0.88.
Proof.
  apply (integrator_gain_strictly_inside (ssm2044_new 44100) no_signals 48000 20000 4).
  lra.
Defined.

(** *** Creation *)

(** X13.  [ssm2044_new] assigns every field: with memory from the host it
    returns an object that does not depend on what that memory held or on
    what [malloc] would return, with pole states, feedback memory, [g] and
    [k] at 0, no signal recorded on any inlet, the host's sample rate and
    its inverse, oversampling factor 1 and no oversampling buffer, and
    with held scalars inside their ranges whatever the arguments are;
    without arguments the held scalars are 1000, 0.5 and 1. *)
Theorem ssm2044_new_args_initial
    (t_atom : Type) (atom_gettype : t_atom -> Z) (A_FLOAT A_LONG : Z)
    (atom_getfloat : t_atom -> R) (raw raw' : t_ssm2044 R) (sys_getsr : R)
    (argc : Z) (argv : nat -> t_atom) (malloc malloc' : option (list R)) :
  exists x : t_ssm2044 R,
    ssm2044_new_args t_atom atom_gettype A_FLOAT A_LONG atom_getfloat
      (Some raw) sys_getsr argc argv malloc = Some x /\
    ssm2044_new_args t_atom atom_gettype A_FLOAT A_LONG atom_getfloat
      (Some raw') sys_getsr argc argv malloc' = Some x /\
    at_rest x /\ g x = 0 /\ k x = 0 /\
    cutoff_has_signal x = 0%Z /\ resonance_has_signal x = 0%Z /\ gain_has_signal x = 0%Z /\
    sr x = sys_getsr /\ sr_inv x = 1 / sys_getsr /\
    oversample_factor x = 1%Z /\ oversample_buffer x = None /\
    held_in_range x /\
    ((argc <= 0)%Z -> x = ssm2044_new sys_getsr).
Proof.
  unfold ssm2044_new_args.
  destruct ((1 <=? argc)%Z && atom_is_number t_atom atom_gettype A_FLOAT A_LONG (argv 0%nat)) eqn:E1;
    destruct ((2 <=? argc)%Z && atom_is_number t_atom atom_gettype A_FLOAT A_LONG (argv 1%nat)) eqn:E2;
    destruct ((3 <=? argc)%Z && atom_is_number t_atom atom_gettype A_FLOAT A_LONG (argv 2%nat)) eqn:E3;
    eexists; (split; [reflexivity|]); (split; [reflexivity|]);
    unfold at_rest, held_in_range;
    cbn [state1 state2 state3 state4 feedback_sample g k sr sr_inv
         cutoff_has_signal resonance_has_signal gain_has_signal
         cutoff_float resonance_float gain_float oversample_factor oversample_buffer
         set_sr set_sr_inv set_state1 set_state2 set_state3 set_state4 set_feedback_sample
         set_cutoff_float set_resonance_float set_gain_float
         set_cutoff_has_signal set_resonance_has_signal set_gain_has_signal
         set_g set_k set_oversample_factor set_oversample_buffer Z.ltb Z.compare Pos.compare
         Pos.compare_cont];
    real_ops_unfold;
    repeat match goal with
           | |- _ /\ _ => split
           | |- _ = _ => reflexivity
           | |- _ <= CLAMP ?a ?lo ?hi => apply (CLAMP_real_range a lo hi); lra
           | |- CLAMP ?a ?lo ?hi <= _ => apply (CLAMP_real_range a lo hi); lra
           | |- (_ <= _)%R => lra
           end;
    intros Hargc;
    repeat match goal with
           | H : (_ && _)%bool = true |- _ =>
               apply andb_prop in H; destruct H as [H _]; apply Z.leb_le in H; lia
           end;
    reflexivity.
Qed.

Lemma ssm2044_new_args_initial_witness :
  ssm2044_new_args unit (fun _ : unit => 0%Z) 2%Z 1%Z (fun _ : unit => 0)
    (Some (ssm2044_new 1)) 48000 0%Z (fun _ => tt) None = Some (ssm2044_new 48000).
Proof.
  destruct (ssm2044_new_args_initial unit (fun _ : unit => 0%Z) 2%Z 1%Z (fun _ : unit => 0)
              (ssm2044_new 1) (ssm2044_new 1) 48000 0%Z (fun _ => tt) None None)
    as (x & H1 & _ & _ & _ & _ & _ & _ & _ & _ & _ & _ & _ & _ & H).
  rewrite H1. f_equal. apply H. lia.
Defined.

(** *** Resonance 0 *)

Lemma process_sample_without_feedback (x : t_ssm2044 R) (v input cutoff gain : R) :
  ssm2044_process_sample (set_feedback_sample x v) input cutoff 0 gain =
  ssm2044_process_sample x input cutoff 0 gain.
Proof.
  rewrite !process_sample_unfolded. cbv zeta.
  set (c := compute_filter_coefficients x cutoff 0).
  set (c' := compute_filter_coefficients (set_feedback_sample x v) cutoff 0).
  assert (stage_input c' input gain = stage_input c input gain) as ->.
  { unfold stage_input, c, c'.
    cbn [compute_filter_coefficients k set_g set_k]. unfold RESONANCE_SCALE.
    real_ops_unfold. ring. }
  reflexivity.
Qed.

(** X18.  At resonance 0 the feedback memory has no influence: when the
    resonance inlet has no signal and the held resonance is 0 or less, a
    block of at least one frame gives the same samples and leaves the same
    object whatever value the feedback memory held before. *)
Theorem perform64_without_resonance
    (x : t_ssm2044 R) (v : R) (ins : nat -> nat -> R) (m : nat) :
  truthy (resonance_has_signal x) = false -> resonance_float x <= 0 ->
  ssm2044_perform64 (set_feedback_sample x v) ins (S m) = ssm2044_perform64 x ins (S m).
Proof.
  intros Tr Hr.
  replace (S m) with (1 + m)%nat by lia.
  rewrite !perform64_append_blocks. cbv zeta.
  assert (ssm2044_perform64 (set_feedback_sample x v) ins 1 = ssm2044_perform64 x ins 1)
    as ->; [|reflexivity].
  rewrite !perform64_next_frame. cbv zeta.
  change (ssm2044_perform64 (set_feedback_sample x v) ins 0) with (set_feedback_sample x v, @nil R).
  change (ssm2044_perform64 x ins 0) with (x, @nil R).
  cbn [fst snd].
  change (cutoff_has_signal (set_feedback_sample x v)) with (cutoff_has_signal x).
  change (resonance_has_signal (set_feedback_sample x v)) with (resonance_has_signal x).
  change (gain_has_signal (set_feedback_sample x v)) with (gain_has_signal x).
  change (cutoff_float (set_feedback_sample x v)) with (cutoff_float x).
  change (resonance_float (set_feedback_sample x v)) with (resonance_float x).
  change (gain_float (set_feedback_sample x v)) with (gain_float x).
  unfold resolve. rewrite Tr. unfold MAX_RESONANCE. real_ops_unfold.
  assert (CLAMP (resonance_float x) 0 4 = 0) as ->.
  { destruct (CLAMP_real (resonance_float x) 0 4) as [[_ ->]|[[H _]|(H & _)]]; lra. }
  rewrite process_sample_without_feedback. reflexivity.
Qed.

Lemma perform64_without_resonance_witness :
  ssm2044_perform64 (set_feedback_sample (ssm2044_float (ssm2044_new 48000) 2 0) 0.25)
    clamp_scenario_ins 2 =
  ssm2044_perform64 (ssm2044_float (ssm2044_new 48000) 2 0) clamp_scenario_ins 2.
Proof.
  apply (perform64_without_resonance (ssm2044_float (ssm2044_new 48000) 2 0) 0.25
           clamp_scenario_ins 1 eq_refl).
  unfold ssm2044_float, MAX_RESONANCE. cbn [set_resonance_float resonance_float].
  real_ops_unfold.
  destruct (CLAMP_real 0 0 4) as [[_ ->]|[[H _]|(H & _)]]; lra.
Defined.

(** *** Instances of the facts about blocks *)

Lemma perform64_block_split_witness :
  ssm2044_perform64 (ssm2044_new 48000) clamp_scenario_ins 3 =
  (fst (ssm2044_perform64 (fst (ssm2044_perform64 (ssm2044_new 48000) clamp_scenario_ins 1))
          (later_frames clamp_scenario_ins 1) (3 - 1)),
   snd (ssm2044_perform64 (ssm2044_new 48000) clamp_scenario_ins 1)
   ++ snd (ssm2044_perform64 (fst (ssm2044_perform64 (ssm2044_new 48000) clamp_scenario_ins 1))
             (later_frames clamp_scenario_ins 1) (3 - 1))).
Proof.
  apply (perform64_block_split (ssm2044_new 48000) clamp_scenario_ins 3 1). lia.
Defined.

Lemma perform64_output_is_fourth_pole_state_witness :
  nth 1 (snd (ssm2044_perform64 (ssm2044_dsp64 (ssm2044_new 48000) all_signals 48000)
                clamp_scenario_ins 2)) 0 =
  state4 (fst (ssm2044_perform64 (ssm2044_dsp64 (ssm2044_new 48000) all_signals 48000)
                 clamp_scenario_ins 2)).
Proof.
  apply (proj1 (perform64_output_is_fourth_pole_state
                  (ssm2044_dsp64 (ssm2044_new 48000) all_signals 48000)
                  clamp_scenario_ins 2 1 0 ltac:(lia))).
Defined.

Lemma perform64_reads_only_witness :
  snd (ssm2044_perform64 (ssm2044_new 48000) clamp_scenario_ins 3) =
  snd (ssm2044_perform64 (set_oversample_factor (set_g (ssm2044_new 48000) 0.5) 4)
         clamp_scenario_ins 3).
Proof.
  apply (proj1 (perform64_reads_only (ssm2044_new 48000)
                  (set_oversample_factor (set_g (ssm2044_new 48000) 0.5) 4)
                  clamp_scenario_ins 3
                  ltac:(repeat split; try reflexivity; intros _; reflexivity))).
Defined.

Lemma float_ignored_while_signal_connected_witness :
  snd (ssm2044_perform64
         (ssm2044_float (ssm2044_dsp64 (ssm2044_new 48000) all_signals 48000) 1 5000)
         clamp_scenario_ins 2) =
  snd (ssm2044_perform64 (ssm2044_dsp64 (ssm2044_new 48000) all_signals 48000)
         clamp_scenario_ins 2).
Proof.
  apply (proj1 (proj1 (float_ignored_while_signal_connected
                         (ssm2044_dsp64 (ssm2044_new 48000) all_signals 48000)
                         1 5000 IZR 0 clamp_scenario_ins 2) eq_refl)).
Defined.

End RealBehaviour.

(** ** [double] read as binary64 *)

Section FloatModel.

Local Open Scope float_scope.

(** C6 as stated fails: handed the rate 0, [ssm2044_dsp64] stores 0 as the
    sample rate and the result of the division 1.0 / 0, which is +infinity
    in binary64, as its inverse. *)
Lemma dsp64_accepts_zero_rate :
  let x' := ssm2044_dsp64 (ops := float_arith) (ssm2044_new (ops := float_arith) 44100) no_signals 0 in
  sr x' = 0 /\ sr_inv x' = infinity.
Proof. cbv zeta. split; vm_compute; reflexivity. Qed.

(** A negative rate is stored as well, with a negative inverse. *)
Lemma dsp64_accepts_negative_rate :
  let x' := ssm2044_dsp64 (ops := float_arith) (ssm2044_new (ops := float_arith) 44100) no_signals (-44100) in
  sr x' = (-44100) /\ PrimFloat.ltb (sr_inv x') 0 = true.
Proof. cbv zeta. split; vm_compute; reflexivity. Qed.

(** [ssm2044_dsp64] does not depend on the libm functions. *)
Lemma dsp64_libm_independent (libm_tan libm_tanh : float -> float)
    (x : t_ssm2044 float) (count : nat -> Z) (samplerate : float) :
  ssm2044_dsp64 (ops := float_ops libm_tan libm_tanh) x count samplerate =
  ssm2044_dsp64 (ops := float_arith) x count samplerate.
Proof. reflexivity. Qed.

(** The impulse response at g = 0.5 in binary64, where every value is
    exact: 1/16, then 1/8. *)
Lemma binary64_impulse_at_half :
  impulse_output (ops := float_arith) 0.5 0 = 0.0625 /\
  impulse_output (ops := float_arith) 0.5 1 = 0.125.
Proof. split; vm_compute; reflexivity. Qed.

(** The parameter clamp replaces a NaN by the lower bound, and
    [denormal_fix] returns NaN and the infinities unchanged. *)
Lemma clamp_and_denormal_fix_on_special_values :
  CLAMP (ops := float_arith) nan 20 20000 = 20 /\
  denormal_fix (ops := float_arith) nan = nan /\
  denormal_fix (ops := float_arith) infinity = infinity /\
  denormal_fix (ops := float_arith) neg_infinity = neg_infinity.
Proof. repeat split; vm_compute; reflexivity. Qed.

(** Arithmetic with a NaN operand gives NaN. *)
Lemma Prim2SF_nan_inv (r : float) : Prim2SF r = S754_nan -> r = nan.
Proof.
  intros H. rewrite <- (SF2Prim_Prim2SF r), H. reflexivity.
Qed.

Lemma sub_nan_r (a : float) : a - nan = nan.
Proof.
  apply Prim2SF_nan_inv. rewrite sub_spec.
  change (Prim2SF nan) with S754_nan.
  unfold SF64sub, SFsub. now destruct (Prim2SF a) as [[]|[]| |[] ? ?].
Qed.

Lemma sub_nan_l (a : float) : nan - a = nan.
Proof.
  apply Prim2SF_nan_inv. rewrite sub_spec.
  change (Prim2SF nan) with S754_nan.
  unfold SF64sub, SFsub. reflexivity.
Qed.

Lemma mul_nan_r (a : float) : a * nan = nan.
Proof.
  apply Prim2SF_nan_inv. rewrite mul_spec.
  change (Prim2SF nan) with S754_nan.
  unfold SF64mul, SFmul. now destruct (Prim2SF a) as [[]|[]| |[] ? ?].
Qed.

Lemma add_nan_l (a : float) : nan + a = nan.
Proof.
  apply Prim2SF_nan_inv. rewrite add_spec.
  change (Prim2SF nan) with S754_nan.
  unfold SF64add, SFadd. reflexivity.
Qed.

Lemma add_nan_r (a : float) : a + nan = nan.
Proof.
  apply Prim2SF_nan_inv. rewrite add_spec.
  change (Prim2SF nan) with S754_nan.
  unfold SF64add, SFadd. now destruct (Prim2SF a) as [[]|[]| |[] ? ?].
Qed.

(** A NaN in the first pole state stays there, and reaches every later
    stage, the feedback memory and the output within the same call,
    whatever [tan] and [tanh] return and whatever the inputs are. *)
Lemma nan_pole_state_persists (libm_tan libm_tanh : float -> float)
    (x : t_ssm2044 float) (input cutoff resonance gain : float) :
  state1 x = nan ->
  let r := ssm2044_process_sample (ops := float_ops libm_tan libm_tanh)
             x input cutoff resonance gain in
  state1 (fst r) = nan /\ state2 (fst r) = nan /\ state3 (fst r) = nan /\
  state4 (fst r) = nan /\ feedback_sample (fst r) = nan /\ snd r = nan.
Proof.
  intros Hs. cbv zeta.
  cbn [ssm2044_process_sample fst snd state1 state2 state3 state4 feedback_sample
       set_state1 set_state2 set_state3 set_state4 set_feedback_sample].
  change (state1 (compute_filter_coefficients x cutoff resonance)) with (state1 x).
  cbn [d_add d_sub d_mul d_div float_ops].
  rewrite Hs.
  rewrite sub_nan_r, mul_nan_r, add_nan_l.
  repeat first [rewrite sub_nan_l | rewrite mul_nan_r | rewrite add_nan_r].
  repeat split; reflexivity.
Qed.

End FloatModel.

(** ** More on the binary64 reading: ranges and NaN *)

Section FloatBehaviour.

Variables libm_tan libm_tanh : float -> float.

Local Open Scope float_scope.

Lemma ltb_leb (a b : float) : PrimFloat.ltb a b = true -> PrimFloat.leb a b = true.
Proof.
  rewrite ltb_spec, leb_spec. unfold SFltb, SFleb.
  destruct (SFcompare (Prim2SF a) (Prim2SF b)) as [[]|]; congruence.
Qed.

(** [CLAMP] with bounds in order returns a value between them for every
    binary64 argument, NaN and the infinities included. *)
Lemma CLAMP_binary64_range (a lo hi : float) :
  PrimFloat.leb lo lo = true -> PrimFloat.leb hi hi = true -> PrimFloat.leb lo hi = true ->
  PrimFloat.leb lo (CLAMP (ops := float_ops libm_tan libm_tanh) a lo hi) = true /\
  PrimFloat.leb (CLAMP (ops := float_ops libm_tan libm_tanh) a lo hi) hi = true.
Proof.
  intros Hl Hh Hlh.
  destruct (CLAMP_cases (ops := float_ops libm_tan libm_tanh) a lo hi)
    as [[_ ->]|[(H1 & H2 & ->)|(_ & _ & ->)]].
  - split; assumption.
  - cbn [d_lt float_ops] in H1, H2. split; apply ltb_leb; assumption.
  - split; assumption.
Qed.

(** X14.  In binary64 the integrator gain is in [0, 0.99] for every object
    and every cutoff and resonance, NaN, infinities and a sample rate of 0
    included, and whatever [tan] returns. *)
#[warnings="-inexact-float"] Theorem integrator_gain_range_binary64
    (x : t_ssm2044 float) (cutoff resonance : float) :
  let x' := compute_filter_coefficients (ops := float_ops libm_tan libm_tanh)
              x cutoff resonance in
  PrimFloat.leb 0 (g x') = true /\ PrimFloat.leb (g x') 0.99 = true.
Proof.
  cbv zeta. cbn [compute_filter_coefficients g set_g set_k].
  apply CLAMP_binary64_range; vm_compute; reflexivity.
Qed.

(** X15.  In binary64 a float message leaves the held scalar of its inlet
    inside the range for every value sent, the infinities and NaN
    included; a NaN stores the lower bound. *)
Theorem ssm2044_float_range_binary64 (x : t_ssm2044 float) (f : float) :
  let store := ssm2044_float (ops := float_ops libm_tan libm_tanh) x in
  (PrimFloat.leb 20 (cutoff_float (store 1%Z f)) = true /\
   PrimFloat.leb (cutoff_float (store 1%Z f)) 20000 = true) /\
  (PrimFloat.leb 0 (resonance_float (store 2%Z f)) = true /\
   PrimFloat.leb (resonance_float (store 2%Z f)) 4 = true) /\
  (PrimFloat.leb 0 (gain_float (store 3%Z f)) = true /\
   PrimFloat.leb (gain_float (store 3%Z f)) 4 = true) /\
  cutoff_float (store 1%Z nan) = 20 /\
  resonance_float (store 2%Z nan) = 0 /\
  gain_float (store 3%Z nan) = 0.
Proof.
  cbv zeta. unfold ssm2044_float.
  cbn [set_cutoff_float set_resonance_float set_gain_float
       cutoff_float resonance_float gain_float].
  repeat split; try (apply CLAMP_binary64_range; vm_compute; reflexivity);
    vm_compute; reflexivity.
Qed.

Lemma mul_nan_l (a : float) : nan * a = nan.
Proof.
  apply Prim2SF_nan_inv. rewrite mul_spec.
  change (Prim2SF nan) with S754_nan.
  unfold SF64mul, SFmul. reflexivity.
Qed.

Lemma div_nan_l (a : float) : nan / a = nan.
Proof.
  apply Prim2SF_nan_inv. rewrite div_spec.
  change (Prim2SF nan) with S754_nan.
  unfold SF64div, SFdiv. reflexivity.
Qed.

Lemma nan_state_step (y : t_ssm2044 float) (a c r gn : float) :
  state1 y = nan ->
  state1 (fst (ssm2044_process_sample (ops := float_ops libm_tan libm_tanh) y a c r gn)) = nan
  /\ snd (ssm2044_process_sample (ops := float_ops libm_tan libm_tanh) y a c r gn) = nan.
Proof.
  intros H.
  pose proof (nan_pole_state_persists libm_tan libm_tanh y a c r gn H) as P.
  cbv zeta in P. split; [exact (proj1 P)|].
  destruct P as (_ & _ & _ & _ & _ & P). exact P.
Qed.

(** A NaN in the first pole state is still there after any number of
    frames. *)
Lemma nan_state_after_frames (x : t_ssm2044 float) (ins : nat -> nat -> float) (m : nat) :
  state1 x = nan ->
  state1 (fst (ssm2044_perform64 (ops := float_ops libm_tan libm_tanh) x ins m)) = nan.
Proof.
  intros Hx. induction m as [|m IH].
  - exact Hx.
  - rewrite perform64_next_state.
    apply nan_state_step. exact IH.
Qed.

(** X16.  A NaN in the first pole state is never cleared: after a block
    of any length it is still there, and every sample the block wrote is
    NaN, whatever the inputs are and whatever [tan] and [tanh] return. *)
Theorem nan_state_persists_through_block
    (x : t_ssm2044 float) (ins : nat -> nat -> float) (n i : nat) (d : float) :
  state1 x = nan -> (i < n)%nat ->
  state1 (fst (ssm2044_perform64 (ops := float_ops libm_tan libm_tanh) x ins n)) = nan /\
  nth i (snd (ssm2044_perform64 (ops := float_ops libm_tan libm_tanh) x ins n)) d = nan.
Proof.
  intros Hx Hi. split; [apply nan_state_after_frames; exact Hx|].
  rewrite (perform64_nth x ins n i d Hi).
  rewrite (proj2 (nan_state_step _ _ _ _ _ (nan_state_after_frames x ins i Hx))).
  reflexivity.
Qed.

Lemma soft_saturation_nan_input :
  libm_tanh nan = nan ->
  soft_saturation (ops := float_ops libm_tan libm_tanh) nan
    (INPUT_DRIVE (ops := float_ops libm_tan libm_tanh)) = nan.
Proof.
  intros Hth. unfold soft_saturation, INPUT_DRIVE.
  cbn [d_mul d_div d_le d_tanh lit_0 lit_1_5 float_ops].
  change (PrimFloat.leb 1.5 0) with false. cbv iota zeta.
  now rewrite mul_nan_l, Hth, div_nan_l.
Qed.

(** A NaN audio sample puts a NaN in the first pole state, when [tanh]
    maps NaN to NaN as C requires. *)
Lemma nan_audio_reaches_state (x : t_ssm2044 float) (cutoff resonance gain : float) :
  libm_tanh nan = nan ->
  state1 (fst (ssm2044_process_sample (ops := float_ops libm_tan libm_tanh)
                 x nan cutoff resonance gain)) = nan /\
  snd (ssm2044_process_sample (ops := float_ops libm_tan libm_tanh)
         x nan cutoff resonance gain) = nan.
Proof.
  intros Hth.
  cbn [ssm2044_process_sample fst snd state1 state2 state3 state4 feedback_sample
       set_state1 set_state2 set_state3 set_state4 set_feedback_sample].
  cbn [d_add d_sub d_mul d_div float_ops].
  rewrite mul_nan_l, (soft_saturation_nan_input Hth), add_nan_l.
  rewrite sub_nan_l, mul_nan_r, add_nan_r.
  repeat first [rewrite sub_nan_l | rewrite mul_nan_r | rewrite add_nan_r].
  split; reflexivity.
Qed.

(** X17.  One NaN audio sample poisons the filter for good: if frame [j]
    of a block carries a NaN on the audio inlet, the sample written for
    frame [j] and for every later frame of the block is NaN (given that
    [tanh] maps NaN to NaN). *)
Theorem nan_audio_poisons_block
    (x : t_ssm2044 float) (ins : nat -> nat -> float) (n j i : nat) (d : float) :
  libm_tanh nan = nan -> ins 0%nat j = nan -> (j <= i)%nat -> (i < n)%nat ->
  nth i (snd (ssm2044_perform64 (ops := float_ops libm_tan libm_tanh) x ins n)) d = nan.
Proof.
  intros Hth Hj Hji Hi.
  assert (state1 (fst (ssm2044_perform64 (ops := float_ops libm_tan libm_tanh)
                         x ins (S j))) = nan) as Hs.
  { rewrite perform64_next_state, Hj.
    apply nan_audio_reaches_state. exact Hth. }
  rewrite (perform64_nth x ins n i d Hi).
  destruct (Nat.eq_dec i j) as [->|Hne].
  - rewrite Hj.
    rewrite (proj2 (nan_audio_reaches_state _ _ _ _ Hth)).
    reflexivity.
  - assert (state1 (fst (ssm2044_perform64 (ops := float_ops libm_tan libm_tanh)
                           x ins i)) = nan) as Hsi.
    { replace i with (S j + (i - S j))%nat by lia.
      rewrite perform64_append_blocks. cbv zeta. cbn [fst].
      apply nan_state_after_frames. exact Hs. }
    rewrite (proj2 (nan_state_step _ _ _ _ _ Hsi)).
    reflexivity.
Qed.

End FloatBehaviour.

(** Instances, with the libm slots filled by [no_libm], which maps NaN to
    NaN. *)
Lemma nan_state_persists_through_block_witness :
  nth 1 (snd (ssm2044_perform64 (ops := float_arith)
                (set_state1 (ssm2044_new (ops := float_arith) 44100%float) nan)
                (fun _ _ => 0%float) 2)) 0%float = nan.
Proof.
  apply (proj2 (nan_state_persists_through_block no_libm no_libm
                  (set_state1 (ssm2044_new (ops := float_arith) 44100%float) nan)
                  (fun _ _ => 0%float) 2 1 0%float eq_refl ltac:(lia))).
Defined.

Lemma nan_audio_poisons_block_witness :
  nth 2 (snd (ssm2044_perform64 (ops := float_arith)
                (ssm2044_new (ops := float_arith) 44100%float)
                (fun inlet i => match inlet, i with O, S O => nan | _, _ => 0%float end) 3))
      0%float = nan.
Proof.
  apply (nan_audio_poisons_block no_libm no_libm
           (ssm2044_new (ops := float_arith) 44100%float)
           (fun inlet i => match inlet, i with O, S O => nan | _, _ => 0%float end)
           3 1 2 0%float eq_refl eq_refl); lia.
Defined.

(** ** The integrator gain in binary64: range, and rounding in line 306 *)

Section TangentEnclosure.

Local Open Scope R_scope.

Lemma Q2R_inject_Z (z : Z) : Q2R (QArith_base.inject_Z z) = IZR z.
Proof. unfold Q2R. cbn. field. Qed.

Lemma Q2R_Qpow (a : QArith_base.Q) (n : nat) : Q2R (Qpow a n) = Q2R a ^ n.
Proof.
  induction n as [|n IH]; cbn [Qpow pow].
  - rewrite Q2R_inject_Z. reflexivity.
  - rewrite Qreals.Q2R_mult, IH. reflexivity.
Qed.

Lemma Zfact_fact (n : nat) : Zfact n = Z.of_nat (fact n).
Proof.
  induction n as [|n IH]; [reflexivity|].
  cbn [Zfact]. rewrite fact_simpl, Nat2Z.inj_mul, IH. reflexivity.
Qed.

Lemma Q2R_Zfact (n : nat) : Q2R (QArith_base.inject_Z (Zfact n)) = INR (fact n).
Proof. rewrite Q2R_inject_Z, Zfact_fact, INR_IZR_INZ. reflexivity. Qed.

Lemma Zfact_not_0 (n : nat) :
  ~ QArith_base.Qeq (QArith_base.inject_Z (Zfact n)) (QArith_base.inject_Z 0).
Proof.
  unfold QArith_base.Qeq. cbn. rewrite Zfact_fact.
  pose proof (lt_O_fact n). lia.
Qed.

Lemma Q2R_Qsum (f : nat -> QArith_base.Q) (n : nat) :
  Q2R (Qsum f n) = sum_f_R0 (fun i => Q2R (f i)) n.
Proof.
  induction n as [|n IH]; cbn [Qsum sum_f_R0]; [reflexivity|].
  rewrite Qreals.Q2R_plus, IH. reflexivity.
Qed.

Lemma Q2R_Qsin_approx (a : QArith_base.Q) (n : nat) :
  Q2R (Qsin_approx a n) = sin_approx (Q2R a) n.
Proof.
  unfold Qsin_approx, sin_approx. rewrite Q2R_Qsum.
  apply sum_eq. intros i _. unfold Qsin_term, sin_term.
  rewrite Qreals.Q2R_mult, Qreals.Q2R_div by apply Zfact_not_0.
  rewrite !Q2R_Qpow, Q2R_Zfact, Q2R_inject_Z. reflexivity.
Qed.

Lemma Q2R_Qcos_approx (a : QArith_base.Q) (n : nat) :
  Q2R (Qcos_approx a n) = cos_approx (Q2R a) n.
Proof.
  unfold Qcos_approx, cos_approx. rewrite Q2R_Qsum.
  apply sum_eq. intros i _. unfold Qcos_term, cos_term.
  rewrite Qreals.Q2R_mult, Qreals.Q2R_div by apply Zfact_not_0.
  rewrite !Q2R_Qpow, Q2R_Zfact, Q2R_inject_Z. reflexivity.
Qed.

(** A rational enclosure of the tangent of a rational in [0, 1], from the
    alternating partial sums of the sine and cosine series. *)
Lemma tan_between (a lo hi : QArith_base.Q) (n : nat) :
  QArith_base.Qle (QArith_base.inject_Z 0) a ->
  QArith_base.Qle a (QArith_base.inject_Z 1) ->
  QArith_base.Qlt (QArith_base.inject_Z 0) lo ->
  QArith_base.Qlt (QArith_base.inject_Z 0) (Qcos_approx a (2 * n + 1)) ->
  QArith_base.Qlt (QArith_base.Qmult lo (Qcos_approx a (2 * (n + 1))))
                  (Qsin_approx a (2 * n + 1)) ->
  QArith_base.Qlt (Qsin_approx a (2 * (n + 1)))
                  (QArith_base.Qmult hi (Qcos_approx a (2 * n + 1))) ->
  Q2R lo < tan (Q2R a) < Q2R hi.
Proof.
  intros H0 H1 Hlo Hc Hl Hh.
  apply Qreals.Qle_Rle in H0, H1. apply Qreals.Qlt_Rlt in Hlo, Hc, Hl, Hh.
  rewrite Qreals.Q2R_mult in Hl, Hh.
  rewrite Q2R_inject_Z in H0, H1, Hlo, Hc.
  rewrite !Q2R_Qsin_approx in *. rewrite !Q2R_Qcos_approx in *.
  pose proof PI2_3_2 as Hpi.
  assert (0 <= Q2R a) as A0 by lra.
  assert (Q2R a <= Rtrigo1.PI) as A1 by lra.
  assert (- Rtrigo1.PI / 2 <= Q2R a) as A2 by lra.
  assert (Q2R a <= Rtrigo1.PI / 2) as A3 by lra.
  pose proof (sin_bound (Q2R a) n A0 A1) as [Hs1 Hs2].
  pose proof (cos_bound (Q2R a) n A2 A3) as [Hc1 Hc2].
  set (s := sin (Q2R a)) in *. set (c := cos (Q2R a)) in *.
  set (sl := sin_approx (Q2R a) (2 * n + 1)) in *.
  set (sh := sin_approx (Q2R a) (2 * (n + 1))) in *.
  set (cl := cos_approx (Q2R a) (2 * n + 1)) in *.
  set (ch := cos_approx (Q2R a) (2 * (n + 1))) in *.
  assert (0 < c) as Hcpos by lra.
  unfold tan. fold s c.
  assert (Q2R lo * c <= Q2R lo * ch) as M1 by (apply Rmult_le_compat_l; lra).
  assert (0 < Q2R hi) as Hhi.
  { destruct (Rlt_le_dec 0 (Q2R hi)) as [|Hn]; [assumption|].
    assert (Q2R hi * cl <= 0 * cl) by (apply Rmult_le_compat_r; lra).
    assert (0 <= sl)
      by (apply Rle_trans with (Q2R lo * c); [apply Rmult_le_pos; lra|lra]).
    lra. }
  assert (Q2R hi * cl <= Q2R hi * c) as M2 by (apply Rmult_le_compat_l; lra).
  split.
  - apply (Rmult_lt_reg_r c); [assumption|].
    replace (s / c * c) with s by (field; lra). lra.
  - apply (Rmult_lt_reg_r c); [assumption|].
    replace (s / c * c) with s by (field; lra). lra.
Qed.

(** The two values of [tan_at_15k] are the binary64 numbers nearest to the
    tangent of the Standard Library at the two arguments: a correctly
    rounded [tan] of the C library returns exactly these. *)
Lemma tan_at_15k_correctly_rounded :
  nearest_binary64 (tan (Q2R (Q_of_binary64 warp_angle_15k_lo)))
                   (tan_at_15k warp_angle_15k_lo) /\
  nearest_binary64 (tan (Q2R (Q_of_binary64 warp_angle_15k_hi)))
                   (tan_at_15k warp_angle_15k_hi).
Proof.
  unfold nearest_binary64.
  split; apply (tan_between _ _ _ 4); vm_compute;
    first [reflexivity | discriminate].
Qed.

End TangentEnclosure.

Section GainBinary64.

Variables libm_tan libm_tanh : float -> float.

Local Open Scope float_scope.

(** Lines 302-309 in one expression: the gain is the clamp of
    [t / (1.0 + t)], where [t] is [tan] of the warp angle. *)
Lemma integrator_gain_unfold (x : t_ssm2044 float) (cutoff resonance : float) :
  g (compute_filter_coefficients (ops := float_ops libm_tan libm_tanh)
       x cutoff resonance)
  = CLAMP (ops := float_ops libm_tan libm_tanh)
      (libm_tan (warp_angle (ops := float_ops libm_tan libm_tanh) x cutoff)
       / (1 + libm_tan (warp_angle (ops := float_ops libm_tan libm_tanh) x cutoff)))
      (lit_0 (DoubleOps := float_ops libm_tan libm_tanh))
      (lit_0_99 (DoubleOps := float_ops libm_tan libm_tanh)).
Proof. reflexivity. Qed.

(** At 48000 Hz the two cutoffs lead to the two tabulated arguments of
    [tan]. *)
Lemma warp_angle_at_15k (x : t_ssm2044 float) (count : nat -> Z) :
  warp_angle (ops := float_ops libm_tan libm_tanh)
    (ssm2044_dsp64 (ops := float_ops libm_tan libm_tanh) x count 48000)
    cutoff_15k_lo = warp_angle_15k_lo /\
  warp_angle (ops := float_ops libm_tan libm_tanh)
    (ssm2044_dsp64 (ops := float_ops libm_tan libm_tanh) x count 48000)
    cutoff_15k_hi = warp_angle_15k_hi.
Proof. split; vm_compute; reflexivity. Qed.

(** With any [tan] that is correctly rounded at the two arguments, the
    larger cutoff yields the smaller gain: [1.0 + t] rounds up by two units
    in the last place of [t] where [t] itself goes up by one. *)
Lemma integrator_gain_inversion_at_15k
    (x : t_ssm2044 float) (count : nat -> Z) (r1 r2 : float) :
  libm_tan warp_angle_15k_lo = warped_15k_lo ->
  libm_tan warp_angle_15k_hi = warped_15k_hi ->
  let x' := ssm2044_dsp64 (ops := float_ops libm_tan libm_tanh) x count 48000 in
  g (compute_filter_coefficients (ops := float_ops libm_tan libm_tanh)
       x' cutoff_15k_lo r1) = 0x1.32ebebc0aa62dp-1 /\
  g (compute_filter_coefficients (ops := float_ops libm_tan libm_tanh)
       x' cutoff_15k_hi r2) = 0x1.32ebebc0aa62cp-1.
Proof.
  intros Hlo Hhi x'. subst x'.
  rewrite !integrator_gain_unfold.
  destruct (warp_angle_at_15k x count) as [-> ->].
  rewrite Hlo, Hhi. split; vm_compute; reflexivity.
Qed.

#[warnings="-inexact-float"] Lemma leb_099_ltb_1 (a : float) :
  PrimFloat.leb a 0.99 = true -> PrimFloat.ltb a 1 = true.
Proof.
  rewrite leb_spec, ltb_spec.
  change (Prim2SF 0x1.fae147ae147aep-1)
    with (S754_finite false 8917127262193582 (-53)).
  change (Prim2SF 1) with (S754_finite false 4503599627370496 (-52)).
  unfold SFleb, SFltb.
  destruct (Prim2SF a) as [[]|[]| |[] m e]; cbv beta iota delta [SFcompare];
    try congruence.
  destruct (Z.compare_spec e (-53)) as [->|H|H].
  - intros _. reflexivity.
  - intros _.
    destruct (Z.compare_spec e (-52)) as [->|H'|H']; [lia|reflexivity|lia].
  - congruence.
Qed.

(** C1, as amended.  For every cutoff, every resonance and every sample
    rate handed to [ssm2044_dsp64] - every binary64 value, NaN, the
    infinities, zero and negative rates included - and whatever the
    [tan] of the C library returns, the integrator gain computed by
    [compute_filter_coefficients] satisfies 0 <= g <= 0.99, and so is
    strictly less than 1.0 and not NaN. *)
#[warnings="-inexact-float"] Theorem integrator_gain_stable_binary64
    (x : t_ssm2044 float) (count : nat -> Z) (samplerate cutoff resonance : float) :
  let x' := compute_filter_coefficients (ops := float_ops libm_tan libm_tanh)
              (ssm2044_dsp64 (ops := float_ops libm_tan libm_tanh) x count samplerate)
              cutoff resonance in
  PrimFloat.leb 0 (g x') = true /\
  PrimFloat.leb (g x') 0.99 = true /\
  PrimFloat.ltb (g x') 1 = true.
Proof.
  cbv zeta. rewrite integrator_gain_unfold.
  match goal with
  | |- context [CLAMP ?a ?lo ?hi] =>
      destruct (CLAMP_binary64_range libm_tan libm_tanh a lo hi) as [H0 H1];
        [vm_compute; reflexivity ..|]
  end.
  split; [exact H0|]. split; [exact H1|]. apply leb_099_ltb_1. exact H1.
Qed.

End GainBinary64.

(** C1 as stated fails in binary64 at a sample rate of 48000 Hz: with
    [tan] correctly rounded at the two arguments that occur, the gain for
    the cutoff [cutoff_15k_hi] is smaller than the gain for the smaller
    cutoff [cutoff_15k_lo]. *)
Lemma integrator_gain_not_monotone_binary64 :
  let x := ssm2044_dsp64 (ops := float_ops tan_at_15k no_libm)
             (ssm2044_new (ops := float_ops tan_at_15k no_libm) 44100%float)
             no_signals 48000%float in
  nearest_binary64
    (tan (Q2R (Q_of_binary64
                 (warp_angle (ops := float_ops tan_at_15k no_libm) x cutoff_15k_lo))))
    (tan_at_15k (warp_angle (ops := float_ops tan_at_15k no_libm) x cutoff_15k_lo)) /\
  nearest_binary64
    (tan (Q2R (Q_of_binary64
                 (warp_angle (ops := float_ops tan_at_15k no_libm) x cutoff_15k_hi))))
    (tan_at_15k (warp_angle (ops := float_ops tan_at_15k no_libm) x cutoff_15k_hi)) /\
  PrimFloat.ltb 0 48000 = true /\
  PrimFloat.ltb cutoff_15k_lo cutoff_15k_hi = true /\
  PrimFloat.ltb
    (g (compute_filter_coefficients (ops := float_ops tan_at_15k no_libm)
          x cutoff_15k_hi 0.5%float))
    (g (compute_filter_coefficients (ops := float_ops tan_at_15k no_libm)
          x cutoff_15k_lo 0.5%float)) = true.
Proof.
  cbv zeta.
  destruct (warp_angle_at_15k tan_at_15k no_libm
              (ssm2044_new (ops := float_ops tan_at_15k no_libm) 44100%float)
              no_signals) as [-> ->].
  destruct tan_at_15k_correctly_rounded as [Hlo Hhi].
  split; [exact Hlo|]. split; [exact Hhi|].
  repeat split; vm_compute; reflexivity.
Qed.
